(** * brother_eye: a shallow embedding of the voice assistant's services

    The development follows the layout of the repository:

    - [Py]        the Python built-ins the services rely on (str methods,
                  slices), over strings of code points below 256;
    - [Json]      JSON values, and the libraries the services call taken as
                  an interface;
    - [Flat]      an instance of that interface for flat records, used by
                  the examples, and [Literals], one for JSON literals;
    - [Fs]        the working directory, as a finite map from paths to
                  contents;
    - [Model]     services/model.py, the streaming client, and [Protocol],
                  the stream protocol in the words of the specification;
    - [Phrase]    the phrase scan shared by the two location extractors;
    - [Clock]     times and dates, with the calendar taken as an interface,
                  and [Gregorian], an instance of it for the examples;
    - [Weather]   services/weather.py;
    - [Intents]   services/intents.py;
    - [Stt]       services/stt.py;
    - [WakeWord]  services/wake_word.py;
    - [Time]      services/time.py;
    - [Widgets]   ui/widgets.py;
    - [App]       ui/app.py, the controller;
    - [Session]   the wake-word worker run against the controller;
    - [Main]      main.py.

    Definitions come first, the theorems about them after. *)

From Stdlib Require Import ZArith String Ascii List Lia QArith Qcanon Lqa.
From stdpp Require Import base option list gmap sets strings pretty numbers.

Open Scope string_scope.

(* ===================================================================== *)
(** ** Python built-ins *)
(* ===================================================================== *)

Module Py.

(** A [str] is modelled by the sequence of its code points, restricted to
    code points below 256 (one [ascii] each). *)

Definition between (lo hi n : N) : bool := ((lo <=? n) && (n <=? hi))%N.

(** [c.isspace()], the characters removed by [str.strip()]: U+0009..U+000D,
    U+001C..U+0020, U+0085 and U+00A0. *)
Definition isspace (c : ascii) : bool :=
  let n := N_of_ascii c in
  between 9 13 n || between 28 32 n || (n =? 133)%N || (n =? 160)%N.

(** Upper-case letters below 256: A..Z and U+00C0..U+00DE except U+00D7. *)
Definition isupper (c : ascii) : bool :=
  let n := N_of_ascii c in
  between 65 90 n || (between 192 222 n && negb (n =? 215)%N).

Definition lower_char (c : ascii) : ascii :=
  if isupper c then ascii_of_N (N_of_ascii c + 32) else c.

(** [s.lower()] *)
Fixpoint lower (s : string) : string :=
  match s with
  | "" => ""
  | String c s' => String (lower_char c) (lower s')
  end.

(** [s.lstrip()], [s.rstrip()], [s.strip()] *)
Fixpoint lstrip (s : string) : string :=
  match s with
  | "" => ""
  | String c s' => if isspace c then lstrip s' else s
  end.

Fixpoint rstrip (s : string) : string :=
  match s with
  | "" => ""
  | String c s' =>
      match rstrip s' with
      | "" => if isspace c then "" else String c ""
      | r => String c r
      end
  end.

Definition strip (s : string) : string := rstrip (lstrip s).

(** [s[n:]] for [0 <= n] *)
Fixpoint drop (n : nat) (s : string) : string :=
  match n, s with
  | O, _ => s
  | S _, "" => ""
  | S n', String _ s' => drop n' s'
  end.

(** [s[-n:]] for [0 < n]: the last [n] characters, all of [s] when it is
    shorter. *)
Definition last_chars (n : nat) (s : string) : string :=
  drop (String.length s - n) s.

(** [sub in s] *)
Fixpoint str_in (sub s : string) : bool :=
  String.prefix sub s ||
  match s with
  | "" => false
  | String _ s' => str_in sub s'
  end.

(** The first occurrence of [sep] in [s]: the text before it and the text
    after it. *)
Fixpoint partition (sep s : string) : option (string * string) :=
  if String.prefix sep s then Some ("", drop (String.length sep) s)
  else
    match s with
    | "" => None
    | String c s' =>
        match partition sep s' with
        | Some (a, b) => Some (String c a, b)
        | None => None
        end
    end.

(** The last occurrence of [sep] in [s]. *)
Fixpoint rpartition (sep s : string) : option (string * string) :=
  match s with
  | "" => if String.prefix sep "" then Some ("", "") else None
  | String c s' =>
      match rpartition sep s' with
      | Some (a, b) => Some (String c a, b)
      | None =>
          if String.prefix sep s then Some ("", drop (String.length sep) s)
          else None
      end
  end.

(** [s.split(sep, 1)] and [s.rsplit(sep, 1)], for a non-empty [sep] (an
    empty one raises ValueError; every call site passes a non-empty
    literal). *)
Definition split1 (sep s : string) : list string :=
  match partition sep s with
  | Some (a, b) => [a; b]
  | None => [s]
  end.

Definition rsplit1 (sep s : string) : list string :=
  match rpartition sep s with
  | Some (a, b) => [a; b]
  | None => [s]
  end.

(** [l[i]] on a list of strings. The call sites take index 0, which a
    split always has, or index 1 under the guard [sep in s]
    ([split1_length]); out of range the model gives the empty string where
    Python raises IndexError. *)
Definition item (i : nat) (l : list string) : string := nth i l "".

(** [str(n)] for an [int]. *)
Definition str_int (n : Z) : string := pretty n.

(** ["".join(l)] *)
Definition join (l : list string) : string := fold_right append "" l.

(** [s[:n]] for [0 <= n] *)
Fixpoint take (n : nat) (s : string) : string :=
  match n, s with
  | O, _ => ""
  | S _, "" => ""
  | S n', String c s' => String c (take n' s')
  end.

(** [s.split(sep)] for a non-empty [sep]: the parts between the occurrences
    of [sep], left to right. Each split takes at least one character, so
    the length of [s] is fuel enough. *)
Fixpoint split_parts (fuel : nat) (sep s : string) : list string :=
  match fuel with
  | O => [s]
  | S fuel' =>
      match partition sep s with
      | Some (a, b) => a :: split_parts fuel' sep b
      | None => [s]
      end
  end.

Definition str_split (sep s : string) : list string :=
  split_parts (String.length s) sep s.

(** [s.replace(old, new)] for a non-empty [old]: the occurrences of [old]
    are replaced left to right, without overlap; [skip] counts the
    characters of an occurrence still to pass over. *)
Fixpoint replace_from (old new : string) (skip : nat) (s : string) : string :=
  match s with
  | "" => ""
  | String c s' =>
      match skip with
      | S k => replace_from old new k s'
      | O =>
          if String.prefix old s
          then new ++ replace_from old new (String.length old - 1) s'
          else String c (replace_from old new 0 s')
      end
  end.

Definition str_replace (old new s : string) : string :=
  replace_from old new 0 s.

(** [s.startswith(p)] *)
Definition startswith (p s : string) : bool := String.prefix p s.


Definition nl : string := String "010" "".
Definition dquote : string := String "034" "".
Definition degree : string := String "176" "".

End Py.

(* ===================================================================== *)
(** ** JSON values and the libraries taken as interfaces *)
(* ===================================================================== *)

Module Json.

(** What [json.loads] returns. A number is kept by its literal; an object
    is a [dict], kept as the list of its items in insertion order, one per
    key. *)
#[warnings="-register-all"] Inductive value : Type :=
| JNull
| JBool (b : bool)
| JNum (literal : string)
| JStr (s : string)
| JArr (items : list value)
| JObj (items : list (string * value)).

Definition dict : Type := list (string * value).

(** [key in d], [d[key]] (None: KeyError), [d.get(key, default)] and
    [d[key] = v] on a dict. *)
Definition dict_has (key : string) (d : dict) : bool :=
  existsb (fun kv => String.eqb (fst kv) key) d.

Fixpoint dict_item (key : string) (d : dict) : option value :=
  match d with
  | [] => None
  | (k, v) :: d' => if String.eqb k key then Some v else dict_item key d'
  end.

Definition dict_get (key : string) (dflt : value) (d : dict) : value :=
  match dict_item key d with
  | Some v => v
  | None => dflt
  end.

Fixpoint dict_set (key : string) (v : value) (d : dict) : dict :=
  match d with
  | [] => [(key, v)]
  | (k, w) :: d' =>
      if String.eqb k key then (k, v) :: d' else (k, w) :: dict_set key v d'
  end.

(** The exceptions that occur in the modelled code. *)
Inductive exn : Type :=
| OllamaAPIError (msg : string)
| TypeError
| KeyError
| UnicodeDecodeError.

(** [key in v] for a [str] key and a decoded JSON value: membership of the
    key in a dict, of an equal element in a list, substring test on a str;
    a number, a boolean or None is not iterable. *)
Definition contains (key : string) (v : value) : exn + bool :=
  match v with
  | JObj d => inr (dict_has key d)
  | JArr l =>
      inr (existsb (fun x => match x with
                             | JStr s => String.eqb s key
                             | _ => false
                             end) l)
  | JStr s => inr (Py.str_in key s)
  | JNull | JBool _ | JNum _ => inl TypeError
  end.

(** [v[key]] for a [str] key. *)
Definition subscript (key : string) (v : value) : exn + value :=
  match v with
  | JObj d =>
      match dict_item key d with
      | Some x => inr x
      | None => inl KeyError
      end
  | _ => inl TypeError
  end.

(** The library functions the services call, as an interface:
    [bytes.decode('utf-8')] (None: UnicodeDecodeError), [json.loads]
    (inl: JSONDecodeError with its message), [json.dumps], and [str()] of a
    value that is not a [str]. *)
Class Library : Type := {
  utf8_decode : string -> option string;
  json_loads : string -> string + value;
  json_dumps : value -> string;
  py_repr : value -> string
}.

(** [str(v)], as an f-string renders a field. *)
Definition format_value `{Library} (v : value) : string :=
  match v with
  | JStr s => s
  | _ => py_repr v
  end.

End Json.

(** *** A decoder for flat records

    An instance of the interface, used by the examples. It covers objects
    whose values are strings, the shape of the model server's records and
    of the location file, with the escapes of code points below 256, and
    lines of ASCII text; it rejects every other input, also where the
    library would accept it. *)

Module Flat.
Import Json.

Definition hex_digit (n : N) : ascii :=
  if (n <? 10)%N then ascii_of_N (48 + n) else ascii_of_N (87 + n).

Definition hex_value (c : ascii) : option N :=
  let n := N_of_ascii c in
  if Py.between 48 57 n then Some (n - 48)%N
  else if Py.between 97 102 n then Some (n - 87)%N
  else if Py.between 65 70 n then Some (n - 55)%N
  else None.

(** One character of a string literal, as [json.dumps] writes it with
    [ensure_ascii]. *)
Definition escape_char (c : ascii) : string :=
  let n := N_of_ascii c in
  if (n =? 34)%N then "\" ++ Py.dquote
  else if (n =? 92)%N then "\\"
  else if (n =? 10)%N then "\n"
  else if (n =? 13)%N then "\r"
  else if (n =? 9)%N then "\t"
  else if (n =? 8)%N then "\b"
  else if (n =? 12)%N then "\f"
  else if Py.between 32 126 n then String c ""
  else "\u00" ++ String (hex_digit (n / 16)) (String (hex_digit (n mod 16)) "").

Fixpoint escape (s : string) : string :=
  match s with
  | "" => ""
  | String c s' => escape_char c ++ escape s'
  end.

Definition quote (s : string) : string := Py.dquote ++ escape s ++ Py.dquote.

Fixpoint dumps (v : value) : string :=
  match v with
  | JNull => "null"
  | JBool true => "true"
  | JBool false => "false"
  | JNum lit => lit
  | JStr s => quote s
  | JArr l =>
      "[" ++ (fix go (l : list value) : string :=
                match l with
                | [] => ""
                | [x] => dumps x
                | x :: r => dumps x ++ ", " ++ go r
                end) l ++ "]"
  | JObj d =>
      "{" ++ (fix go (d : list (string * value)) : string :=
                match d with
                | [] => ""
                | [(k, x)] => quote k ++ ": " ++ dumps x
                | (k, x) :: r => quote k ++ ": " ++ dumps x ++ ", " ++ go r
                end) d ++ "}"
  end.

Definition json_space (c : ascii) : bool :=
  let n := N_of_ascii c in
  (n =? 32)%N || (n =? 9)%N || (n =? 10)%N || (n =? 13)%N.

Fixpoint skip_ws (s : string) : string :=
  match s with
  | "" => ""
  | String c s' => if json_space c then skip_ws s' else s
  end.

(** The body of a string literal, after its opening quote: the decoded
    text and the input left after the closing quote. *)
Fixpoint read_string (s : string) : option (string * string) :=
  match s with
  | "" => None
  | String c s' =>
      let n := N_of_ascii c in
      if (n =? 34)%N then Some ("", s')
      else if (n =? 92)%N then
        match s' with
        | "" => None
        | String e s'' =>
            let keep (x : ascii) :=
              match read_string s'' with
              | Some (t, r) => Some (String x t, r)
              | None => None
              end in
            match N_of_ascii e with
            | 34%N => keep "034"%char
            | 92%N => keep "092"%char
            | 47%N => keep "047"%char
            | 98%N => keep "008"%char
            | 102%N => keep "012"%char
            | 110%N => keep "010"%char
            | 114%N => keep "013"%char
            | 116%N => keep "009"%char
            | 117%N =>
                match s'' with
                | String a (String b (String h (String l r))) =>
                    match hex_value a, hex_value b, hex_value h, hex_value l with
                    | Some 0%N, Some 0%N, Some x, Some y =>
                        match read_string r with
                        | Some (t, r') =>
                            Some (String (ascii_of_N (16 * x + y)) t, r')
                        | None => None
                        end
                    | _, _, _, _ => None
                    end
                | _ => None
                end
            | _ => None
            end
        end
      else if (n <? 32)%N then None
      else
        match read_string s' with
        | Some (t, r) => Some (String c t, r)
        | None => None
        end
  end.

Definition read_quoted (s : string) : option (string * string) :=
  match skip_ws s with
  | String c s' => if (N_of_ascii c =? 34)%N then read_string s' else None
  | "" => None
  end.

Definition expect (c : ascii) (s : string) : option string :=
  match skip_ws s with
  | String c' s' => if Ascii.eqb c c' then Some s' else None
  | "" => None
  end.

(** The members of an object after its opening brace, up to and including
    the closing brace; a repeated key keeps its last value. *)
Fixpoint read_members (fuel : nat) (acc : dict) (s : string)
  : option (dict * string) :=
  match fuel with
  | O => None
  | S fuel' =>
      match read_quoted s with
      | None => None
      | Some (k, s1) =>
          match expect ":" s1 with
          | None => None
          | Some s2 =>
              match read_quoted s2 with
              | None => None
              | Some (v, s3) =>
                  let acc' := dict_set k (JStr v) acc in
                  match skip_ws s3 with
                  | String c s4 =>
                      if Ascii.eqb c "," then read_members fuel' acc' s4
                      else if Ascii.eqb c "}" then Some (acc', s4)
                      else None
                  | "" => None
                  end
              end
          end
      end
  end.

Definition loads (s : string) : string + value :=
  let failed := inl "Expecting value" in
  match expect "{" s with
  | None => failed
  | Some s1 =>
      let members :=
        match expect "}" s1 with
        | Some s2 => Some ([], s2)
        | None => read_members (String.length s1) [] s1
        end in
      match members with
      | Some (d, rest) =>
          match skip_ws rest with
          | "" => inr (JObj d)
          | _ => failed
          end
      | None => failed
      end
  end.

(** Lines of ASCII text decode to themselves; other lines are outside the
    instance. *)
Definition decode (b : string) : option string :=
  if forallb (fun c => (N_of_ascii c <? 128)%N) (list_ascii_of_string b)
  then Some b else None.

Definition library : Library :=
  {| utf8_decode := decode;
     json_loads := loads;
     json_dumps := dumps;
     py_repr := dumps |}.

(** A record with the given string fields, as the server writes it. *)
Definition record (fields : list (string * string)) : string :=
  "{" ++ (fix go (l : list (string * string)) : string :=
            match l with
            | [] => ""
            | [(k, v)] => quote k ++ ":" ++ quote v
            | (k, v) :: r => quote k ++ ":" ++ quote v ++ "," ++ go r
            end) fields ++ "}".

End Flat.

(** *** A decoder that also reads the JSON literals

    The flat decoder extended with [null], [true], [false] and unsigned
    integers, for the examples about lines that are not objects. *)

Module Literals.
Import Json.

Definition is_digit (c : ascii) : bool := Py.between 48 57 (N_of_ascii c).

Definition loads (s : string) : string + value :=
  if String.eqb s "null" then inr JNull
  else if String.eqb s "true" then inr (JBool true)
  else if String.eqb s "false" then inr (JBool false)
  else
    match s with
    | String c _ =>
        if forallb is_digit (list_ascii_of_string s)
           && (negb (Ascii.eqb c "0") || String.eqb s "0")
        then inr (JNum s)
        else Flat.loads s
    | "" => Flat.loads s
    end.

Definition library : Library :=
  {| utf8_decode := Flat.decode;
     json_loads := loads;
     json_dumps := Flat.dumps;
     py_repr := Flat.dumps |}.

End Literals.


(* ===================================================================== *)
(** ** The working directory *)
(* ===================================================================== *)

Module Fs.

(** The files of the working directory by path, and the paths that cannot
    be opened for writing. A file that exists can be read. *)
Record t : Type := { files : gmap string string; locked : gset string }.

Definition empty : t := {| files := ∅; locked := ∅ |}.

(** [os.path.exists(path)] *)
Definition path_exists (path : string) (fs : t) : bool :=
  bool_decide (is_Some (files fs !! path)).

(** [open(path, 'r').read()] *)
Definition read_text (path : string) (fs : t) : option string :=
  files fs !! path.

(** [open(path, 'w').write(content)]; None: the open raises OSError and
    the file is left as it was. *)
Definition write_text (path content : string) (fs : t) : option t :=
  if decide (path ∈ locked fs) then None
  else Some {| files := <[path := content]> (files fs); locked := locked fs |}.

End Fs.

(* ===================================================================== *)
(** ** services/model.py *)
(* ===================================================================== *)

Module Model.
Import Json.

(** What the generator does, in order: the fragments it yields and the
    lines it logs. *)
Inductive event : Type :=
| Yield (fragment : value)
| LogWarning (msg : string)
| LogError (msg : string).

(** How the generator ends: exhausted, or with an exception. *)
Inductive outcome : Type :=
| Return
| Raise (e : exn).

(** What [requests.post] and [raise_for_status] give: the lines of the
    streamed body, or one of the transport failures the client catches. *)
Inductive http_result : Type :=
| Streaming (lines : list string)
| Timeout
| ConnectionError
| RequestException (msg : string).

Definition url : string := "http://localhost:11434/api/generate".

Definition brain_food (text model : string) (system_prompt : option string)
  : dict :=
  let base :=
    [("model", JStr model); ("prompt", JStr text); ("stream", JBool true)] in
  match system_prompt with
  | Some (String c p) => dict_set "system" (JStr (String c p)) base
  | _ => base
  end.

Section Client.
Context `{Library}.

(** The body of the loop of [brain_stream] on one line: what it emits, and
    the exception that leaves the generator, if any. *)
Definition on_line (thought : string) : list event * option exn :=
  match thought with
  | "" => ([], None)
  | _ =>
      match utf8_decode thought with
      | None => ([], Some UnicodeDecodeError)
      | Some chunk =>
          match json_loads chunk with
          | inl e => ([LogWarning ("error parsing json response: " ++ e)], None)
          | inr chunk_data =>
              match contains "response" chunk_data with
              | inl e => ([], Some e)
              | inr true =>
                  match subscript "response" chunk_data with
                  | inr v => ([Yield v], None)
                  | inl e => ([], Some e)
                  end
              | inr false =>
                  match contains "error" chunk_data with
                  | inl e => ([], Some e)
                  | inr true =>
                      match subscript "error" chunk_data with
                      | inr v =>
                          let msg := "ollama api error: " ++ format_value v in
                          ([LogError msg], Some (OllamaAPIError msg))
                      | inl e => ([], Some e)
                      end
                  | inr false => ([], None)
                  end
              end
          end
      end
  end.

Fixpoint brain_stream (lines : list string) : list event * outcome :=
  match lines with
  | [] => ([], Return)
  | thought :: rest =>
      match on_line thought with
      | (evs, Some e) => (evs, Raise e)
      | (evs, None) =>
          let '(evs', out) := brain_stream rest in ((evs ++ evs')%list, out)
      end
  end.

(** [get_ollama_response]: the request is posted ([post] is the server)
    and the generator over the body returned; a transport failure is
    raised as the provider error. *)
Definition get_ollama_response (post : string -> dict -> http_result)
    (text model : string) (system_prompt : option string)
  : exn + (list event * outcome) :=
  match post url (brain_food text model system_prompt) with
  | Streaming lines => inr (brain_stream lines)
  | Timeout => inl (OllamaAPIError "timeout connecting to ollama")
  | ConnectionError =>
      inl (OllamaAPIError "failed to connect to ollama. is it running?")
  | RequestException e =>
      inl (OllamaAPIError ("error talking to ollama: " ++ e))
  end.

(** The fragments among the events, in order. *)
Definition fragments (evs : list event) : list value :=
  omap (fun ev => match ev with Yield v => Some v | _ => None end) evs.

End Client.
End Model.

(** *** The stream protocol, in the words of the specification *)

Module Protocol.
Import Json.

Section Protocol.
Context `{Library}.

(** The record a line carries: the object a non-empty line parses to. *)
Definition record_of (line : string) : option dict :=
  match line with
  | "" => None
  | _ =>
      match utf8_decode line with
      | Some chunk =>
          match json_loads chunk with
          | inr (JObj d) => Some d
          | _ => None
          end
      | None => None
      end
  end.

Definition records (lines : list string) : list dict := omap record_of lines.

(** A line of a stream of records: empty, or decodable text that either
    fails to parse or parses to an object. *)
Definition record_line (line : string) : bool :=
  match line with
  | "" => true
  | _ =>
      match utf8_decode line with
      | Some chunk =>
          match json_loads chunk with
          | inr (JObj _) | inl _ => true
          | inr _ => false
          end
      | None => false
      end
  end.

Definition provider_error (d : dict) : exn :=
  OllamaAPIError
    ("ollama api error: " ++ format_value (dict_get "error" JNull d)).

(** The [response] values of the records in order, up to the first record
    that [fails], where the provider error of its [error] field is raised. *)
Fixpoint stream (fails : dict -> bool) (recs : list dict)
  : list value * Model.outcome :=
  match recs with
  | [] => ([], Model.Return)
  | d :: rest =>
      if fails d then ([], Model.Raise (provider_error d))
      else
        let '(vs, out) := stream fails rest in
        (match dict_item "response" d with
         | Some v => v :: vs
         | None => vs
         end, out)
  end.

(** The protocol of the claim: the first record containing an [error]
    field fails. *)
Definition has_error (d : dict) : bool := dict_has "error" d.

Definition stream_stated (lines : list string) : list value * Model.outcome :=
  stream has_error (records lines).

(** A record of the protocol is a [response] record or an [error] record:
    it does not have both fields. *)
Definition protocol_record (d : dict) : bool :=
  negb (dict_has "response" d && dict_has "error" d).

(** A line of a stream of the model server: a line of a stream of records
    whose record, if it carries one, is a record of the protocol. *)
Definition protocol_line (line : string) : bool :=
  record_line line
  && match record_of line with
     | Some d => protocol_record d
     | None => true
     end.

(** What the client does on any stream of records, also outside the
    protocol: the [response] field is looked at first, so that a record
    fails when it has an [error] field and no [response] field. *)
Definition error_only (d : dict) : bool :=
  dict_has "error" d && negb (dict_has "response" d).

Definition stream_response_first (lines : list string)
  : list value * Model.outcome :=
  stream error_only (records lines).

(** What the client yields and how it ends. *)
Definition observed (lines : list string) : list value * Model.outcome :=
  let '(evs, out) := Model.brain_stream lines in (Model.fragments evs, out).

End Protocol.
End Protocol.

(* ===================================================================== *)
(** ** The phrase scan shared by the two location extractors *)
(* ===================================================================== *)

(** [weather.extract_location] and the fallback of
    [intents.extract_location_from_text] run the same loop over their own
    list of phrases; it is written once here. *)

Module Phrase.

Definition endings : list string := ["."; "?"; "!"].

(** [for ending in ['.', '?', '!']: if ending in place: ...] *)
Definition remove_ending (place ending : string) : string :=
  if Py.str_in ending place
  then Py.strip (Py.item 0 (Py.split1 ending place))
  else place.

Definition remove_endings (place : string) : string :=
  fold_left remove_ending endings place.

(** [for phrase in location_phrases: if phrase in text_lower: ...] *)
Fixpoint scan (phrases : list string) (text_lower : string) : option string :=
  match phrases with
  | [] => None
  | phrase :: rest =>
      if Py.str_in phrase text_lower then
        let place := Py.strip (Py.item 1 (Py.split1 phrase text_lower)) in
        let place := remove_endings place in
        match place with
        | "" => None
        | _ => Some place
        end
      else scan rest text_lower
  end.

(** The same, in the words of the specification: the first phrase of the
    list found in the text, the remainder after it, cut at the first
    sentence-ending mark and trimmed; no value when that is empty. *)
Definition sentence_end (c : ascii) : bool :=
  Ascii.eqb c "." || Ascii.eqb c "?" || Ascii.eqb c "!".

(** The text before the first character that satisfies [stop]. *)
Fixpoint cut_at (stop : ascii -> bool) (s : string) : string :=
  match s with
  | "" => ""
  | String c s' => if stop c then "" else String c (cut_at stop s')
  end.

Definition before_mark (s : string) : string := cut_at sentence_end s.

Fixpoint after_phrase (phrase s : string) : string :=
  if String.prefix phrase s then Py.drop (String.length phrase) s
  else
    match s with
    | "" => ""
    | String _ s' => after_phrase phrase s'
    end.

Definition first_phrase (phrases : list string) (text_lower : string)
  : option string :=
  List.find (fun phrase => Py.str_in phrase text_lower) phrases.

Definition extract_spec (phrases : list string) (text : string)
  : option string :=
  match first_phrase phrases (Py.lower text) with
  | None => None
  | Some phrase =>
      match Py.strip (before_mark (after_phrase phrase (Py.lower text))) with
      | "" => None
      | place => Some place
      end
  end.

End Phrase.

(* ===================================================================== *)
(** ** Times of day and the calendar *)
(* ===================================================================== *)

Module Clock.

(** A [datetime.time]. *)
Record t : Type := {
  hour : nat;
  minute : nat;
  second : nat;
  microsecond : nat
}.

(** [a > b]: the later of two times of day, field by field. *)
Definition later (a b : t) : bool :=
  Nat.ltb (hour b) (hour a)
  || (Nat.eqb (hour a) (hour b)
      && (Nat.ltb (minute b) (minute a)
          || (Nat.eqb (minute a) (minute b)
              && (Nat.ltb (second b) (second a)
                  || (Nat.eqb (second a) (second b)
                      && Nat.ltb (microsecond b) (microsecond a)))))).

Definition two_digits (n : nat) : string :=
  if Nat.ltb n 10 then "0" ++ Py.str_int (Z.of_nat n)
  else Py.str_int (Z.of_nat n).

(** [x.strftime("%H:%M")] *)
Definition strftime_HM (x : t) : string :=
  two_digits (hour x) ++ ":" ++ two_digits (minute x).

(** The [datetime] library, as an interface: the values [datetime.now()]
    returns, their time of day and their rendering by a format. *)
Class Calendar : Type := {
  datetime : Type;
  time_of : datetime -> t;
  strftime : string -> datetime -> string
}.

End Clock.


(** *** A calendar for the examples

    An instance of the interface: dates with their time of day and day of
    the week, rendered in English for the directives the services use. *)

Module Gregorian.

Record date_time : Type := {
  year : nat;
  month : nat;
  day : nat;
  weekday : nat;
  time : Clock.t
}.

Definition day_names : list string :=
  [ "Monday"; "Tuesday"; "Wednesday"; "Thursday"; "Friday"; "Saturday";
    "Sunday" ].

Definition month_names : list string :=
  [ "January"; "February"; "March"; "April"; "May"; "June"; "July";
    "August"; "September"; "October"; "November"; "December" ].

Definition four_digits (n : nat) : string :=
  (if Nat.ltb n 1000 then "0" else "")
  ++ (if Nat.ltb n 100 then "0" else "")
  ++ Clock.two_digits n.

Definition directive (d : ascii) (x : date_time) : string :=
  let t := time x in
  if Ascii.eqb d "Y" then four_digits (year x)
  else if Ascii.eqb d "m" then Clock.two_digits (month x)
  else if Ascii.eqb d "d" then Clock.two_digits (day x)
  else if Ascii.eqb d "H" then Clock.two_digits (Clock.hour t)
  else if Ascii.eqb d "M" then Clock.two_digits (Clock.minute t)
  else if Ascii.eqb d "S" then Clock.two_digits (Clock.second t)
  else if Ascii.eqb d "I" then
    Clock.two_digits
      (if Nat.eqb (Clock.hour t mod 12) 0 then 12 else Clock.hour t mod 12)
  else if Ascii.eqb d "p" then
    (if Nat.ltb (Clock.hour t) 12 then "AM" else "PM")
  else if Ascii.eqb d "A" then nth (weekday x) day_names ""
  else if Ascii.eqb d "B" then nth (month x - 1) month_names ""
  else String "%" (String d "").

Fixpoint strftime (format : string) (x : date_time) : string :=
  match format with
  | "" => ""
  | String c rest =>
      if Ascii.eqb c "%" then
        match rest with
        | String d rest' => directive d x ++ strftime rest' x
        | "" => "%"
        end
      else String c (strftime rest x)
  end.

Definition calendar : Clock.Calendar :=
  {| Clock.datetime := date_time;
     Clock.time_of := time;
     Clock.strftime := strftime |}.

End Gregorian.

(* ===================================================================== *)
(** ** services/weather.py *)
(* ===================================================================== *)

Module Weather.
Import Json.

Definition DEFAULT_LOCATION : string := "Santa Cruz".
Definition LOCATION_CONFIG_FILE : string := "location_config.json".

Section Store.
Context `{Library}.

(** [config.get] on a decoded value that is not a dict raises
    AttributeError, caught like every other exception of the read. *)
Definition get_saved_location (fs : Fs.t) : value :=
  if Fs.path_exists LOCATION_CONFIG_FILE fs then
    match Fs.read_text LOCATION_CONFIG_FILE fs with
    | Some text =>
        match json_loads text with
        | inr (JObj config) => dict_get "location" (JStr DEFAULT_LOCATION) config
        | inr _ => JStr DEFAULT_LOCATION
        | inl _ => JStr DEFAULT_LOCATION
        end
    | None => JStr DEFAULT_LOCATION
    end
  else JStr DEFAULT_LOCATION.

Definition save_location (location : string) (fs : Fs.t) : bool * Fs.t :=
  let config := JObj [("location", JStr location)] in
  match Fs.write_text LOCATION_CONFIG_FILE (json_dumps config) fs with
  | Some fs' => (true, fs')
  | None => (false, fs)
  end.

End Store.

Definition location_phrases : list string :=
  [ "set my location to ";
    "change my location to ";
    "my location is ";
    "weather in ";
    "temperature in ";
    "forecast for ";
    "weather for ";
    "how's the weather in ";
    "how is the weather in ";
    "weather" ].

Definition extract_location (text : string) : option string :=
  let text_lower := Py.lower text in
  Phrase.scan location_phrases text_lower.

(** An entry of [upcoming_hours]. *)
Record hour : Type := {
  time : string;
  hour_temperature : Z;
  hour_description : string;
  chance_of_rain : Z
}.

(** The dict built by [get_weather_data]; the keys added only when a daily
    forecast exists are optional. ([precipitation], a float the formatter
    does not read, is left out.) *)
Record weather_data : Type := {
  location : string;
  region : string;
  country : string;
  temperature : Z;
  feels_like : Z;
  humidity : Z;
  description : string;
  kind : string;
  wind_speed : Z;
  wind_direction : string;
  local_time : string;
  current_time : string;
  today_high : option Z;
  today_low : option Z;
  sunrise : option string;
  sunset : option string;
  upcoming_hours : option (list hour)
}.

Definition indent : string := "        ".

(** [rain_chance] of the loop over the upcoming hours. *)
Definition rain_chance (h : hour) : string :=
  if (0 <? chance_of_rain h)%Z
  then " (" ++ Py.str_int (chance_of_rain h) ++ "% chance of rain)"
  else "".

(** The line the loop appends for one hour. *)
Definition hour_line (h : hour) : string :=
  "- " ++ time h ++ ": " ++ Py.str_int (hour_temperature h) ++ Py.degree
  ++ "F, " ++ hour_description h ++ rain_chance h ++ Py.nl.

Definition current_block (w : weather_data) : string :=
  Py.nl
  ++ indent ++ "--- CURRENT WEATHER DATA ---" ++ Py.nl
  ++ indent ++ "Location: " ++ location w ++ ", " ++ region w ++ ", "
  ++ country w ++ Py.nl
  ++ indent ++ "Current Time: " ++ local_time w ++ Py.nl
  ++ indent ++ "Temperature: " ++ Py.str_int (temperature w) ++ Py.degree
  ++ "F (Feels like: " ++ Py.str_int (feels_like w) ++ Py.degree ++ "F)"
  ++ Py.nl
  ++ indent ++ "Conditions: " ++ description w ++ Py.nl
  ++ indent ++ "Humidity: " ++ Py.str_int (humidity w) ++ "%" ++ Py.nl
  ++ indent ++ "Wind: " ++ Py.str_int (wind_speed w) ++ " km/h "
  ++ wind_direction w ++ Py.nl.

Definition format_weather_data_for_prompt (data : option weather_data)
  : string :=
  match data with
  | None => "weather data couldn't be retrieved."
  | Some w =>
      let sky_text := current_block w in
      let sky_text :=
        match today_high w, today_low w with
        | Some hi, Some lo =>
            sky_text ++ "Today's High: " ++ Py.str_int hi ++ Py.degree
            ++ "F / Low: " ++ Py.str_int lo ++ Py.degree ++ "F" ++ Py.nl
        | _, _ => sky_text
        end in
      let sky_text :=
        match sunrise w, sunset w with
        | Some up, Some down =>
            sky_text ++ "Sunrise: " ++ up ++ " / Sunset: " ++ down ++ Py.nl
        | _, _ => sky_text
        end in
      match upcoming_hours w with
      | Some (h :: hs) =>
          fold_left (fun sky_text hour => sky_text ++ hour_line hour)
            (h :: hs) (sky_text ++ Py.nl ++ "Upcoming Hours:" ++ Py.nl)
      | _ => sky_text
      end
  end.

(** The text before the section of the upcoming hours. *)
Definition preamble (w : weather_data) : string :=
  current_block w
  ++ match today_high w, today_low w with
     | Some hi, Some lo =>
         "Today's High: " ++ Py.str_int hi ++ Py.degree
         ++ "F / Low: " ++ Py.str_int lo ++ Py.degree ++ "F" ++ Py.nl
     | _, _ => ""
     end
  ++ match sunrise w, sunset w with
     | Some up, Some down => "Sunrise: " ++ up ++ " / Sunset: " ++ down ++ Py.nl
     | _, _ => ""
     end.

(** The line of an hour up to the place of the suffix, and the suffix. *)
Definition hour_stem (h : hour) : string :=
  "- " ++ time h ++ ": " ++ Py.str_int (hour_temperature h) ++ Py.degree
  ++ "F, " ++ hour_description h.

Definition rain_suffix (n : Z) : string :=
  " (" ++ Py.str_int n ++ "% chance of rain)".

Definition sky_words : list string :=
  [ "weather"; "temperature"; "forecast"; "rain"; "sunny"; "cloudy";
    "snow"; "storm"; "cold"; "hot"; "humid"; "wind"; "windy";
    "precipitation"; "climate"; "foggy"; "frost"; "hail"; "thunder";
    "lightning"; "temperature"; "degrees"; "sunrise"; "sunset" ].

Definition is_weather_query (text : string) : bool :=
  if Py.str_in "set my location" (Py.lower text)
     || Py.str_in "change my location" (Py.lower text)
  then true
  else
    let text_lower := Py.lower text in
    existsb (fun word => Py.str_in word text_lower) sky_words.

(** What the forecast provider returns: an hourly forecast, a daily
    forecast and the report with the current conditions. The names of the
    enumerated [kind] and [wind_direction] are kept as strings;
    [precipitation] is left out as in [weather_data]. *)
Module Hourly.
Record t : Type := {
  time : Clock.t;
  temperature : Z;
  description : string;
  chances_of_rain : Z
}.
End Hourly.

Module Daily.
Record t : Type := {
  highest_temperature : Z;
  lowest_temperature : Z;
  sunrise : option Clock.t;
  sunset : option Clock.t;
  hourly_forecasts : list Hourly.t
}.
End Daily.

Module Report.
Record t `{Clock.Calendar} : Type := {
  location : string;
  region : string;
  country : string;
  temperature : Z;
  feels_like : Z;
  humidity : Z;
  description : string;
  kind : string;
  wind_speed : Z;
  wind_direction : string;
  datetime : Clock.datetime;
  daily_forecasts : list Daily.t
}.
End Report.

Section Fetch.
Context `{Json.Library} `{Clock.Calendar}.

(** The entry appended for an hourly forecast. *)
Definition coming_hour (h : Hourly.t) : hour :=
  {| time := Clock.strftime_HM (Hourly.time h);
     hour_temperature := Hourly.temperature h;
     hour_description := Hourly.description h;
     chance_of_rain := Hourly.chances_of_rain h |}.

(** The loop over the hourly forecasts of today. The clock is read anew at
    each test: [clock n] is the [n]-th reading of [datetime.now()] made by
    the call, and [reads] the number of readings made so far. *)
Fixpoint upcoming (clock : nat -> Clock.datetime) (reads : nat)
    (hourly : list Hourly.t) (coming_hours : list hour) : list hour :=
  match hourly with
  | [] => coming_hours
  | h :: rest =>
      if Clock.later (Hourly.time h) (Clock.time_of (clock reads)) then
        let coming_hours := (coming_hours ++ [coming_hour h])%list in
        if Nat.leb 3 (length coming_hours) then coming_hours
        else upcoming clock (S reads) rest coming_hours
      else upcoming clock (S reads) rest coming_hours
  end.

(** The hourly forecasts that are later than the clock at their test, the
    [i]-th being tested against the reading [reads + i]. *)
Fixpoint later_entries (clock : nat -> Clock.datetime) (reads : nat)
    (hourly : list Hourly.t) : list Hourly.t :=
  match hourly with
  | [] => []
  | h :: rest =>
      if Clock.later (Hourly.time h) (Clock.time_of (clock reads))
      then h :: later_entries clock (S reads) rest
      else later_entries clock (S reads) rest
  end.

Definition sun_time (x : option Clock.t) : string :=
  match x with
  | Some x => Clock.strftime_HM x
  | None => "N/A"
  end.

(** [get_weather_data]: [provider] is the call to the forecast service
    for a location, [None] standing for any exception raised on the way,
    which the function turns into [None]. *)
Definition get_weather_data (provider : Json.value -> option Report.t)
    (clock : nat -> Clock.datetime) (place : option string) (fs : Fs.t)
  : option weather_data :=
  let place :=
    match place with
    | Some l => Json.JStr l
    | None => get_saved_location fs
    end in
  match provider place with
  | None => None
  | Some sky_report =>
      let today := head (Report.daily_forecasts sky_report) in
      Some
        {| location := Report.location sky_report;
           region := Report.region sky_report;
           country := Report.country sky_report;
           temperature := Report.temperature sky_report;
           feels_like := Report.feels_like sky_report;
           humidity := Report.humidity sky_report;
           description := Report.description sky_report;
           kind := Report.kind sky_report;
           wind_speed := Report.wind_speed sky_report;
           wind_direction := Report.wind_direction sky_report;
           local_time :=
             Clock.strftime "%Y-%m-%d %H:%M:%S" (Report.datetime sky_report);
           current_time := Clock.strftime "%Y-%m-%d %H:%M:%S" (clock 0);
           today_high := Daily.highest_temperature <$> today;
           today_low := Daily.lowest_temperature <$> today;
           sunrise := (fun d => sun_time (Daily.sunrise d)) <$> today;
           sunset := (fun d => sun_time (Daily.sunset d)) <$> today;
           upcoming_hours :=
             match today with
             | Some d =>
                 match upcoming clock 1 (Daily.hourly_forecasts d) [] with
                 | [] => None
                 | coming_hours => Some coming_hours
                 end
             | None => None
             end |}
  end.

End Fetch.


End Weather.

(* ===================================================================== *)
(** ** services/intents.py *)
(* ===================================================================== *)

Module Intents.
Import Json.

Definition DEFAULT_LOCATION : string := "Santa Cruz".
Definition LOCATION_CONFIG_FILE : string := "location_config.json".

(** A named entity of a document: [ent.label_] and [ent.text]. *)
Record ent : Type := { label_ : string; text : string }.

(** The language model loaded by [spacy.load], as an interface: the
    documents it builds, their entities and their similarity. The
    similarity is a float in the source, taken to be finite; only the order
    of the scores is used, so a score is kept as the rational number the
    float denotes. *)
Class Spacy : Type := {
  doc : Type;
  brain : string -> doc;
  ents : doc -> list ent;
  similarity : doc -> doc -> Qc
}.

Definition intent_examples : list (string * list string) :=
  [ ("WEATHER",
     [ "what's the weather like";
       "how's the weather today";
       "is it going to rain";
       "what's the temperature outside";
       "will it be sunny tomorrow";
       "what's the forecast";
       "how hot is it today";
       "is it cold outside";
       "what's the weather in" ]);
    ("TIME",
     [ "what time is it";
       "what's the current time";
       "tell me the time";
       "what's today's date";
       "what day is it";
       "what month is it";
       "what's the date today";
       "tell me today's date";
       "what year is it" ]);
    ("LOCATION_SETTING",
     [ "set my location to";
       "change my location to";
       "update my location to";
       "my location is";
       "i'm in";
       "set my location";
       "remember my location";
       "save my location as" ]) ].

(** [found_things] of [extract_entities]. *)
Record entities : Type := {
  location : option string;
  datetime : option string
}.

(** The dict returned by [detect_intent]. *)
Record result : Type := {
  original_text : string;
  intent : option string;
  confidence : Qc;
  all_scores : list (string * Qc);
  best_matching_example : option string;
  found : entities
}.

(** The running best of the loop of [detect_intent]. *)
Record best : Type := {
  best_intent : option string;
  best_score : Qc;
  best_example : option string;
  scores : list (string * Qc)
}.

(** [max(l)] of a non-empty list and [l.index(x)] of an element. *)
Definition py_max (l : list Qc) : Qc :=
  match l with
  | [] => 0%Qc
  | x :: r => fold_left (fun m y => if decide (m < y)%Qc then y else m) r x
  end.

Fixpoint py_index (x : Qc) (l : list Qc) : nat :=
  match l with
  | [] => 0
  | y :: r => if decide (y = x) then 0 else S (py_index x r)
  end.

(** [threshold = 0.70]: the binary64 number the literal denotes,
    3152519739159347 / 2^52, a little below 7/10. *)
Definition threshold : Qc :=
  Q2Qc (3152519739159347 # 4503599627370496).

Definition is_place (e : ent) : bool :=
  existsb (String.eqb (label_ e)) ["GPE"; "LOC"].

Definition is_datetime (e : ent) : bool :=
  String.eqb (label_ e) "DATE" || String.eqb (label_ e) "TIME".

Section Detector.
Context `{Library} `{Spacy}.

Definition processed_examples : list (string * list doc) :=
  map (fun '(intent, examples) => (intent, map brain examples))
    intent_examples.

(** [[ent.text for ent in doc.ents if ent.label_ in ["GPE", "LOC"]]] *)
Definition places (d : doc) : list string :=
  map text (filter (fun e => is_place e = true) (ents d)).

Definition extract_entities (d : doc) : entities :=
  {| location := head (places d);
     datetime :=
       fold_left (fun acc e => if is_datetime e then Some (text e) else acc)
         (ents d) None |}.

Definition detect_intent (txt : string) : result :=
  let d := brain (Py.lower txt) in
  let step (b : best) (entry : string * list doc) : best :=
    let '(intent, examples) := entry in
    let intent_scores := map (similarity d) examples in
    let best_intent_score := py_max intent_scores in
    let best_example_idx := py_index best_intent_score intent_scores in
    let scores' := (scores b ++ [(intent, best_intent_score)])%list in
    if decide (best_score b < best_intent_score)%Qc then
      {| best_intent := Some intent;
         best_score := best_intent_score;
         best_example :=
           match List.find (fun e => String.eqb (fst e) intent)
                   intent_examples with
           | Some (_, examples) => nth_error examples best_example_idx
           | None => None
           end;
         scores := scores' |}
    else
      {| best_intent := best_intent b;
         best_score := best_score b;
         best_example := best_example b;
         scores := scores' |} in
  let b :=
    fold_left step processed_examples
      {| best_intent := None; best_score := 0%Qc; best_example := None;
         scores := [] |} in
  {| original_text := txt;
     intent :=
       if decide (threshold <= best_score b)%Qc then best_intent b else None;
     confidence := best_score b;
     all_scores := scores b;
     best_matching_example := best_example b;
     found := extract_entities d |}.

Definition is_location_setting (txt : string) : bool * option string :=
  let r := detect_intent txt in
  (bool_decide (intent r = Some "LOCATION_SETTING"), location (found r)).

Definition location_phrases : list string :=
  [ "set my location to ";
    "change my location to ";
    "update my location to ";
    "my location is ";
    "i'm in ";
    "i am in ";
    "save my location as " ].

Definition extract_location_from_text (txt : string) : option string :=
  let d := brain txt in
  match places d with
  | place :: _ => Some place
  | [] =>
      let text_lower := Py.lower txt in
      Phrase.scan location_phrases text_lower
  end.

Definition save_location (loc : string) (fs : Fs.t) : bool * Fs.t :=
  let config := JObj [("location", JStr loc)] in
  match Fs.write_text LOCATION_CONFIG_FILE (json_dumps config) fs with
  | Some fs' => (true, fs')
  | None => (false, fs)
  end.

Definition get_saved_location (fs : Fs.t) : value :=
  if Fs.path_exists LOCATION_CONFIG_FILE fs then
    match Fs.read_text LOCATION_CONFIG_FILE fs with
    | Some content =>
        match json_loads content with
        | inr (JObj config) => dict_get "location" (JStr DEFAULT_LOCATION) config
        | inr _ => JStr DEFAULT_LOCATION
        | inl _ => JStr DEFAULT_LOCATION
        end
    | None => JStr DEFAULT_LOCATION
    end
  else JStr DEFAULT_LOCATION.

(** Truth value of an optional [str]: None and the empty string are
    false. *)
Definition truthy (s : option string) : bool :=
  match s with
  | Some (String _ _) => true
  | _ => false
  end.

Definition handle_location_setting (txt : string) (fs : Fs.t)
  : (bool * string) * Fs.t :=
  let '(is_setting, loc) := is_location_setting txt in
  if negb is_setting then ((false, ""), fs)
  else
    let loc := if truthy loc then loc else extract_location_from_text txt in
    match loc with
    | Some (String c l) =>
        let place := String c l in
        let '(success, fs') := save_location place fs in
        if success
        then ((true, "i've set your location to " ++ place ++ "."), fs')
        else ((false, "i had trouble saving your location. please try again."),
              fs')
    | _ =>
        ((false,
          "i couldn't determine what location you want to set. please try again with a clear location name."),
         fs)
    end.

(** The score of an intent for a text: the best similarity of the text to
    the examples of the intent. *)
Definition intent_score (label txt : string) : Qc :=
  py_max
    (map (similarity (brain (Py.lower txt)))
       (map brain
          (match List.find (fun e => String.eqb (fst e) label)
                   intent_examples with
           | Some (_, examples) => examples
           | None => []
           end))).

Definition is_weather_query (txt : string) : bool * option string :=
  let r := detect_intent txt in
  (bool_decide (intent r = Some "WEATHER"), location (found r)).

Definition is_time_query (txt : string) : bool :=
  let r := detect_intent txt in
  bool_decide (intent r = Some "TIME").


End Detector.

(** A language model for the examples: it knows the capital-cased names of
    a few cities as places, and two texts are similar when one starts with
    the other. *)
Definition known_places : list string := ["Tokyo"; "Paris"; "Berlin"].

Definition sample_ents (txt : string) : list ent :=
  map (fun p => {| label_ := "GPE"; text := p |})
    (filter (fun p => Py.str_in p txt = true) known_places).

Definition sample_similarity (a b : string) : Qc :=
  if String.prefix b a || String.prefix a b then 1%Qc else 0%Qc.

Definition sample_spacy : Spacy :=
  {| doc := string;
     brain := fun txt => txt;
     ents := sample_ents;
     similarity := sample_similarity |}.

(** A language model that knows the names in lower case as well. *)
Definition known_places_any_case : list string :=
  ["Tokyo"; "tokyo"; "Paris"; "paris"].

Definition any_case_ents (txt : string) : list ent :=
  map (fun p => {| label_ := "GPE"; text := p |})
    (filter (fun p => Py.str_in p txt = true) known_places_any_case).

Definition any_case_spacy : Spacy :=
  {| doc := string;
     brain := fun txt => txt;
     ents := any_case_ents;
     similarity := sample_similarity |}.

End Intents.

(* ===================================================================== *)
(** ** services/stt.py *)
(* ===================================================================== *)

Module Stt.

(** What the worker asks the controller to run, through
    [call_from_thread]. The calls themselves are taken to succeed. *)
Inductive call : Type :=
| UpdateStatus (status class_name : string)
| GetAiResponse (words : string)
| RestartWakeWordDetection.

(** [recognizer.listen]: a sample, the wait timeout, or another exception
    with its text. *)
Inductive listened : Type :=
| Sample
| WaitTimeoutError
| ListenException (msg : string).

(** [recognizer.recognize_google]: the transcript or an exception. *)
Inductive recognized : Type :=
| Words (words : string)
| UnknownValueError
| RequestError (msg : string)
| RecognizeException (msg : string).

(** The readings of [stop_event.is_set()], one per place of the function
    that reads it. *)
Record stop_reads : Type := {
  before_listen : bool;
  on_timeout : bool;
  after_capture : bool;
  after_recognition : bool;
  on_error : bool
}.

(** The surroundings of one call: whether the microphone opens and the
    calibration succeeds (the text of the exception otherwise), and what
    the recognizer does. *)
Record env : Type := {
  microphone : option string;
  calibration : option string;
  listen : listened;
  recognize : recognized;
  stop : stop_reads
}.

Definition report_and_restart (status : string) : list call :=
  [UpdateStatus status "error"; RestartWakeWordDetection].

(** The handler of the inner [try]. *)
Definition on_exception (e : env) (msg : string) : list call :=
  if on_error (stop e) then [] else report_and_restart ("error: " ++ msg).

Definition listen_to_microphone (should_listen : bool) (e : env) : list call :=
  match microphone e with
  | Some msg => report_and_restart ("fatal mic error: " ++ msg)
  | None =>
      match calibration e with
      | Some msg => report_and_restart ("error adjusting for noise: " ++ msg)
      | None =>
          if should_listen && negb (before_listen (stop e)) then
            UpdateStatus "listening..." "listening" ::
            match listen e with
            | WaitTimeoutError =>
                if on_timeout (stop e) then []
                else report_and_restart "no speech detected"
            | ListenException msg => on_exception e msg
            | Sample =>
                if after_capture (stop e) then []
                else
                  UpdateStatus "processing speech..." "processing" ::
                  match recognize e with
                  | Words words =>
                      if after_recognition (stop e) then []
                      else
                        match words with
                        | "" => []
                        | _ => [GetAiResponse words]
                        end
                  | UnknownValueError =>
                      report_and_restart "couldn't understand audio"
                  | RequestError msg =>
                      report_and_restart ("speech service error: " ++ msg)
                  | RecognizeException msg => on_exception e msg
                  end
            end
          else []
      end
  end.

(** The status the indicator is left with: the last update of a trace. *)
Definition last_status (calls : list call) : option (string * string) :=
  fold_left
    (fun acc c =>
       match c with
       | UpdateStatus status class_name => Some (status, class_name)
       | _ => acc
       end) calls None.

Definition is_update (c : call) : bool :=
  match c with UpdateStatus _ _ => true | _ => false end.

Definition is_response (c : call) : bool :=
  match c with GetAiResponse _ => true | _ => false end.

Definition is_restart (c : call) : bool :=
  match c with RestartWakeWordDetection => true | _ => false end.

End Stt.

(* ===================================================================== *)
(** ** services/wake_word.py *)
(* ===================================================================== *)

Module WakeWord.

Inductive call : Type :=
| UpdateStatus (status class_name : string)
| HandleWakeWordDetected
| AutoStopListening.

(** How the steps before the loop go: the import, the decoder, the
    microphone and the start of the utterance (a failed calibration is
    logged and ignored). *)
Inductive setup : Type :=
| ImportError
| DecoderError (msg : string)
| MicrophoneError (msg : string)
| StartUttError (msg : string)
| Ready.

(** One pass of the loop: the listen times out, the listen or the decoder
    raises, or the decoder has a hypothesis (or none) after the chunk. *)
Inductive capture : Type :=
| WaitTimeoutError
| ListenException
| ProcessException
| Decoded (hypstr : option string).

(** The arguments passed by value when the thread is created. The stop
    event is passed too, but it is an object shared with the controller:
    the worker reads the controller's. *)
Record args : Type := {
  wake_word : string;
  detecting_wake_word : bool
}.

Inductive phase : Type :=
| Starting
| Looping
| Finished.

(** A thread running [detect_wake_word]: its arguments, where it is, and
    its local [utterance_active]. *)
Record thread : Type := {
  targs : args;
  where_ : phase;
  utterance_active : bool
}.

(** [while not stop_event.is_set() and detecting_wake_word:] *)
Definition loop_test (stop_is_set : bool) (a : args) : bool :=
  negb stop_is_set && detecting_wake_word a.

(** The body of the loop: the calls it makes and whether it breaks. *)
Definition loop_body (a : args) (c : capture) : list call * bool :=
  match c with
  | Decoded (Some hypstr) =>
      if Py.str_in (Py.lower (wake_word a)) (Py.lower hypstr)
      then ([UpdateStatus "wake word detected! listening..." "listening";
             HandleWakeWordDetected], true)
      else ([], false)
  | _ => ([], false)
  end.

(** The part before the loop: the calls made, whether the loop is entered,
    and, when it is not, whether the final test of the stop event is still
    reached (it is skipped by the early returns). *)
Definition before_loop (a : args) (s : setup) : list call * phase * bool :=
  let listening :=
    UpdateStatus ("listening for '" ++ wake_word a ++ "'...") "wake-word" in
  match s with
  | ImportError =>
      ([UpdateStatus "error: pocketsphinx not installed" "error";
        AutoStopListening], Finished, false)
  | DecoderError msg =>
      ([UpdateStatus ("decoder error: " ++ msg) "error"; AutoStopListening],
       Finished, false)
  | MicrophoneError msg =>
      ([listening; UpdateStatus ("mic error: " ++ msg) "error";
        AutoStopListening], Finished, true)
  | StartUttError msg =>
      ([listening; UpdateStatus ("decoder start error: " ++ msg) "error";
        AutoStopListening], Finished, false)
  | Ready => ([listening], Looping, false)
  end.

(** After the loop: [if stop_event.is_set(): ...] *)
Definition after_loop (stop_is_set : bool) : list call :=
  if stop_is_set then [UpdateStatus "stopped" "idle"] else [].

End WakeWord.

(* ===================================================================== *)
(** ** services/time.py *)
(* ===================================================================== *)

Module Time.

Definition time_words : list string :=
  [ "time"; "what time"; "current time"; "clock";
    "date"; "day"; "today"; "month"; "year"; "what day" ].

Definition is_time_query (text : string) : bool :=
  let text_lower := Py.lower text in
  existsb (fun word => Py.str_in word text_lower) time_words.




End Time.

(* ===================================================================== *)
(** ** ui/widgets.py *)
(* ===================================================================== *)

Module Widgets.

(** The glyphs of the status indicator. Their code points lie above 255,
    so a glyph is kept by name and apart from the text it is rendered
    with. *)
Inductive face : Type :=
| Sleeping
| Microphone
| Hourglass
| Robot
| Cross
| Ear
| Speaker
| Arrows.

Definition mood_icons : list (string * face) :=
  [ ("idle", Sleeping);
    ("listening", Microphone);
    ("processing", Hourglass);
    ("getting ai response", Robot);
    ("error", Cross);
    ("waiting for wake word", Ear);
    ("streaming speech", Speaker) ].

(** [mood_icons.get(base_mood, default)] *)
Fixpoint icon_of (table : list (string * face)) (base_mood : string)
    (default : face) : face :=
  match table with
  | [] => default
  | (k, f) :: rest =>
      if String.eqb k base_mood then f else icon_of rest base_mood default
  end.

(** [ListeningIndicator.render]: the glyph, and the text that follows it
    after a space. *)
Definition render (status : string) : face * string :=
  let base_mood := Py.strip (Py.item 0 (Py.str_split "'" status)) in
  let face := icon_of mood_icons base_mood Arrows in
  let clean_status :=
    Py.str_replace "]" "\]" (Py.str_replace "[" "\[" status) in
  (face, clean_status).

(** [ResponseArea]: the transcript and the flag of the typing effect. *)
Record response_area : Type := {
  text : string;
  is_typing : bool
}.

Definition person_tag : string := "[bold red]user:[/] ".
Definition brother_tag : string := "[bold cyan]brother_eye:[/]".



Definition update_user_text (txt : string) (w : response_area)
  : response_area :=
  let new_text :=
    if negb (Py.startswith person_tag (text w)) then person_tag ++ txt
    else
      match Py.split1 brother_tag (text w) with
      | [_; ai] => (person_tag ++ txt) ++ brother_tag ++ ai
      | _ => person_tag ++ txt
      end in
  {| text := new_text; is_typing := is_typing w |}.

Definition stop_typing (w : response_area) : response_area :=
  {| text := text w; is_typing := false |}.

Definition clear (w : response_area) : response_area :=
  {| text := ""; is_typing := false |}.

End Widgets.


(* ===================================================================== *)
(** ** ui/app.py *)
(* ===================================================================== *)

Module App.
Import Json.

(** The status indicator: its reactive [status] and its CSS classes. *)
Record indicator : Type := {
  status : string;
  classes : gset string
}.

Definition remove_class (c : string) (i : indicator) : indicator :=
  {| status := status i; classes := classes i ∖ {[c]} |}.

Definition add_class (c : string) (i : indicator) : indicator :=
  {| status := status i; classes := classes i ∪ {[c]} |}.

Definition set_status (s : string) (i : indicator) : indicator :=
  {| status := s; classes := classes i |}.

(** The five status categories. *)
Definition categories : list string :=
  ["idle"; "listening"; "processing"; "error"; "wake-word"].

(** The controller. The threads are kept by what the controller passed to
    them; a thread replaced while it is alive is not followed further. The
    temporary directory and the keyword file are left out. *)
Record t : Type := {
  wake_word : string;
  listening_thread : option bool;
  wake_word_thread : option WakeWord.thread;
  should_listen : bool;
  detecting_wake_word : bool;
  direct_listening_mode : bool;
  stop_event : bool;
  wake_word_detected_event : bool;
  status_light : indicator
}.

Definition with_listening_thread (x : option bool) (a : t) : t :=
  {| wake_word := wake_word a; listening_thread := x;
     wake_word_thread := wake_word_thread a; should_listen := should_listen a;
     detecting_wake_word := detecting_wake_word a;
     direct_listening_mode := direct_listening_mode a;
     stop_event := stop_event a;
     wake_word_detected_event := wake_word_detected_event a;
     status_light := status_light a |}.

Definition with_wake_word_thread (x : option WakeWord.thread) (a : t) : t :=
  {| wake_word := wake_word a; listening_thread := listening_thread a;
     wake_word_thread := x; should_listen := should_listen a;
     detecting_wake_word := detecting_wake_word a;
     direct_listening_mode := direct_listening_mode a;
     stop_event := stop_event a;
     wake_word_detected_event := wake_word_detected_event a;
     status_light := status_light a |}.

Definition with_should_listen (x : bool) (a : t) : t :=
  {| wake_word := wake_word a; listening_thread := listening_thread a;
     wake_word_thread := wake_word_thread a; should_listen := x;
     detecting_wake_word := detecting_wake_word a;
     direct_listening_mode := direct_listening_mode a;
     stop_event := stop_event a;
     wake_word_detected_event := wake_word_detected_event a;
     status_light := status_light a |}.

Definition with_detecting_wake_word (x : bool) (a : t) : t :=
  {| wake_word := wake_word a; listening_thread := listening_thread a;
     wake_word_thread := wake_word_thread a; should_listen := should_listen a;
     detecting_wake_word := x;
     direct_listening_mode := direct_listening_mode a;
     stop_event := stop_event a;
     wake_word_detected_event := wake_word_detected_event a;
     status_light := status_light a |}.

Definition with_direct_listening_mode (x : bool) (a : t) : t :=
  {| wake_word := wake_word a; listening_thread := listening_thread a;
     wake_word_thread := wake_word_thread a; should_listen := should_listen a;
     detecting_wake_word := detecting_wake_word a;
     direct_listening_mode := x;
     stop_event := stop_event a;
     wake_word_detected_event := wake_word_detected_event a;
     status_light := status_light a |}.

Definition with_stop_event (x : bool) (a : t) : t :=
  {| wake_word := wake_word a; listening_thread := listening_thread a;
     wake_word_thread := wake_word_thread a; should_listen := should_listen a;
     detecting_wake_word := detecting_wake_word a;
     direct_listening_mode := direct_listening_mode a;
     stop_event := x;
     wake_word_detected_event := wake_word_detected_event a;
     status_light := status_light a |}.

Definition with_wake_word_detected_event (x : bool) (a : t) : t :=
  {| wake_word := wake_word a; listening_thread := listening_thread a;
     wake_word_thread := wake_word_thread a; should_listen := should_listen a;
     detecting_wake_word := detecting_wake_word a;
     direct_listening_mode := direct_listening_mode a;
     stop_event := stop_event a;
     wake_word_detected_event := x;
     status_light := status_light a |}.

Definition with_status_light (x : indicator) (a : t) : t :=
  {| wake_word := wake_word a; listening_thread := listening_thread a;
     wake_word_thread := wake_word_thread a; should_listen := should_listen a;
     detecting_wake_word := detecting_wake_word a;
     direct_listening_mode := direct_listening_mode a;
     stop_event := stop_event a;
     wake_word_detected_event := wake_word_detected_event a;
     status_light := x |}.

(** [__init__] and the composition of the status panel. *)
Definition init (wake_word : string) : t :=
  {| wake_word := Py.lower wake_word;
     listening_thread := None;
     wake_word_thread := None;
     should_listen := false;
     detecting_wake_word := false;
     direct_listening_mode := false;
     stop_event := false;
     wake_word_detected_event := false;
     status_light := {| status := "idle"; classes := {["idle"]} |} |}.

Definition update_status (status class_name : string) (a : t) : t :=
  let status_light := status_light a in
  let status_light := set_status status status_light in
  let status_light := remove_class "listening" status_light in
  let status_light := remove_class "processing" status_light in
  let status_light := remove_class "error" status_light in
  let status_light := remove_class "idle" status_light in
  let status_light := remove_class "wake-word" status_light in
  let status_light := add_class class_name status_light in
  with_status_light status_light a.

(** The reset of the indicator written out in [stop_all] and twice in
    [restart_wake_word_detection]. *)
Definition reset_indicator (a : t) : t :=
  let status_light := status_light a in
  let status_light := set_status "idle" status_light in
  let status_light := remove_class "listening" status_light in
  let status_light := remove_class "processing" status_light in
  let status_light := remove_class "error" status_light in
  let status_light := remove_class "wake-word" status_light in
  let status_light := add_class "idle" status_light in
  with_status_light status_light a.

Definition stop_all (a : t) : t :=
  let a := with_should_listen false a in
  let a := with_detecting_wake_word false a in
  let a := with_direct_listening_mode false a in
  let a := with_stop_event true a in
  reset_indicator a.

(** [Thread(target=detect_wake_word, args=(...))]: the flag is read when the
    thread is created and its value passed. *)
Definition spawn_wake_word (a : t) : t :=
  with_wake_word_thread
    (Some {| WakeWord.targs :=
               {| WakeWord.wake_word := wake_word a;
                  WakeWord.detecting_wake_word := detecting_wake_word a |};
             WakeWord.where_ := WakeWord.Starting;
             WakeWord.utterance_active := false |}) a.

Definition spawn_listening (a : t) : t :=
  with_listening_thread (Some (should_listen a)) a.

Definition start_wake_word_detection (a : t) : t :=
  if negb (detecting_wake_word a) then
    let a := with_detecting_wake_word true a in
    let a := with_direct_listening_mode false a in
    let a := with_stop_event false a in
    let a := with_wake_word_detected_event false a in
    let a := spawn_wake_word a in
    update_status ("waiting for wake word '" ++ wake_word a ++ "'...")
      "wake-word" a
  else a.

Definition start_direct_listening (a : t) : t :=
  if negb (should_listen a) then
    let a := with_stop_event false a in
    let a := with_detecting_wake_word false a in
    let a := with_direct_listening_mode true a in
    let a := with_should_listen true a in
    let a := spawn_listening a in
    update_status "listening for your voice..." "listening" a
  else a.

Definition handle_wake_word_detected (a : t) : t :=
  if negb (should_listen a) then
    let a := with_should_listen true a in
    spawn_listening a
  else a.

Definition restart_wake_word_detection (a : t) : t :=
  let a := with_should_listen false a in
  if direct_listening_mode a then
    let a := with_direct_listening_mode false a in
    reset_indicator a
  else if detecting_wake_word a && negb (stop_event a) then
    spawn_wake_word a
  else reset_indicator a.

Definition auto_stop_listening (a : t) : t :=
  let a := with_should_listen false a in
  let a := with_detecting_wake_word false a in
  with_direct_listening_mode false a.

Definition action_toggle_wake_word (a : t) : t :=
  if negb (detecting_wake_word a) then start_wake_word_detection a
  else stop_all a.

Definition action_toggle_listening (a : t) : t :=
  if negb (should_listen a) then start_direct_listening a
  else stop_all a.

Definition action_stop_all (a : t) : t := stop_all a.

(** The key bindings (quitting apart). *)
Inductive key : Type :=
| CtrlW
| CtrlL
| CtrlS.

Definition press (k : key) (a : t) : t :=
  match k with
  | CtrlW => action_toggle_wake_word a
  | CtrlL => action_toggle_listening a
  | CtrlS => action_stop_all a
  end.

(** *** The streaming loop of [get_ai_response] *)

Definition marker : string := "[bold cyan]brother_eye:[/] ".
Definition buffer_size : nat := 1024.

(** The locals of the loop, and the texts passed to [answer_box.update]
    together with the buffer they were built from, latest first. *)
Record streaming : Type := {
  full_response : string;
  answer_text : string;
  shown : list (string * string)
}.

(** How the loop is left: the stream is exhausted, the stop event was found
    set, or an exception is raised, by the generator or by [+=] on a
    fragment that is not a [str]. *)
Inductive ending : Type :=
| Exhausted
| Stopped
| Raised (e : exn).

(** One pass of the loop on a fragment. *)
Definition on_thought (thought : string) (s : streaming) : streaming :=
  let full_response := full_response s ++ thought in
  let full_response :=
    if decide (buffer_size < String.length full_response)
    then Py.last_chars buffer_size full_response
    else full_response in
  let answer_text :=
    Py.item 0 (Py.rsplit1 marker (answer_text s)) ++ marker ++ full_response in
  {| full_response := full_response;
     answer_text := answer_text;
     shown := (full_response, answer_text) :: shown s |}.

(** The loop over the fragments the generator yields, each with the
    reading of the stop event at the top of its pass; [final] is how the
    generator ends after them. *)
Fixpoint stream_loop (brain_stream : list (bool * value))
    (final : Model.outcome) (s : streaming) : streaming * ending :=
  match brain_stream with
  | [] =>
      match final with
      | Model.Return => (s, Exhausted)
      | Model.Raise e => (s, Raised e)
      end
  | (stop_is_set, thought) :: rest =>
      if stop_is_set then (s, Stopped)
      else
        match thought with
        | JStr fragment => stream_loop rest final (on_thought fragment s)
        | _ => (s, Raised TypeError)
        end
  end.

(** The fragments the loop appends before it is left. *)
Fixpoint consumed (brain_stream : list (bool * value)) : list string :=
  match brain_stream with
  | (false, JStr fragment) :: rest => fragment :: consumed rest
  | _ => []
  end.

(** What a display update is checked for: the buffer it shows is within
    the bound, and the text it is given ends with the marker and that
    buffer. *)
Definition update_ok (p : string * string) : Prop :=
  String.length (fst p) <= buffer_size
  /\ exists before, snd p = before ++ marker ++ fst p.

(** The loop as [get_ai_response] enters it: the marker was appended to the
    transcript and the buffer is empty. *)
Definition start_streaming (transcript : string) : streaming :=
  {| full_response := "";
     answer_text := transcript ++ Py.nl ++ Py.nl ++ marker;
     shown := [] |}.

(** *** The controller under its methods *)

(** What runs on the controller's thread: a key binding, a callback
    marshaled from a worker, or a status update. *)
Inductive method : Type :=
| Key (k : key)
| HandleWakeWordDetected
| RestartWakeWordDetection
| AutoStopListening
| UpdateStatus (status class_name : string).

Definition call (a : t) (m : method) : t :=
  match m with
  | Key k => press k a
  | HandleWakeWordDetected => handle_wake_word_detected a
  | RestartWakeWordDetection => restart_wake_word_detection a
  | AutoStopListening => auto_stop_listening a
  | UpdateStatus status class_name => update_status status class_name a
  end.

Definition calls (ms : list method) (a : t) : t := fold_left call ms a.

(** Every status update in the sources names one of the five categories. *)
Definition names_category (m : method) : bool :=
  match m with
  | UpdateStatus _ class_name => existsb (String.eqb class_name) categories
  | _ => true
  end.

(** The indicator carries the category [c] and no other. *)
Definition only_category (c : string) (i : indicator) : Prop :=
  Forall (fun c' => c' ∈ classes i <-> c' = c) categories.

(** The indicator of the controller carries exactly one category. *)
Definition one_category (a : t) : Prop :=
  exists c, In c categories /\ only_category c (status_light a).

(** *** [get_ai_response] *)

Section Respond.
Context `{Library} `{Intents.Spacy} `{Clock.Calendar}.






End Respond.


End App.

(* ===================================================================== *)
(** ** The wake-word worker against the controller *)
(* ===================================================================== *)

Module Session.

(** What happens, in order: the user presses a key, the worker goes
    through its setup, or the worker comes to the top of its loop with the
    next chunk of audio. *)
Inductive tick : Type :=
| Press (k : App.key)
| Setup (s : WakeWord.setup)
| Chunk (c : WakeWord.capture).

(** [call_from_thread(f, ...)]: the controller runs [f]. *)
Definition deliver (a : App.t) (c : WakeWord.call) : App.t :=
  match c with
  | WakeWord.UpdateStatus status class_name =>
      App.update_status status class_name a
  | WakeWord.HandleWakeWordDetected => App.handle_wake_word_detected a
  | WakeWord.AutoStopListening => App.auto_stop_listening a
  end.

Definition at_phase (p : WakeWord.phase) (active : bool) (th : WakeWord.thread)
  : WakeWord.thread :=
  {| WakeWord.targs := WakeWord.targs th;
     WakeWord.where_ := p;
     WakeWord.utterance_active := active |}.

(** The worker leaves its loop: the utterance is ended and the stop event
    tested a last time. *)
Definition leave_loop (th : WakeWord.thread) (a : App.t) : App.t :=
  let a := fold_left deliver (WakeWord.after_loop (App.stop_event a)) a in
  App.with_wake_word_thread (Some (at_phase WakeWord.Finished false th)) a.

Definition worker_setup (s : WakeWord.setup) (th : WakeWord.thread)
    (a : App.t) : App.t :=
  let '(calls, p, final) := WakeWord.before_loop (WakeWord.targs th) s in
  let a := fold_left deliver calls a in
  match p with
  | WakeWord.Looping =>
      App.with_wake_word_thread (Some (at_phase WakeWord.Looping true th)) a
  | _ =>
      if final then leave_loop th a
      else
        App.with_wake_word_thread
          (Some (at_phase WakeWord.Finished false th)) a
  end.

Definition worker_pass (c : WakeWord.capture) (th : WakeWord.thread)
    (a : App.t) : App.t :=
  if WakeWord.loop_test (App.stop_event a) (WakeWord.targs th) then
    let '(calls, break) := WakeWord.loop_body (WakeWord.targs th) c in
    let a := fold_left deliver calls a in
    if break then leave_loop th a else a
  else leave_loop th a.

Definition step (a : App.t) (k : tick) : App.t :=
  match k with
  | Press key => App.press key a
  | Setup s =>
      match App.wake_word_thread a with
      | Some th =>
          match WakeWord.where_ th with
          | WakeWord.Starting => worker_setup s th a
          | _ => a
          end
      | None => a
      end
  | Chunk c =>
      match App.wake_word_thread a with
      | Some th =>
          match WakeWord.where_ th with
          | WakeWord.Looping => worker_pass c th a
          | _ => a
          end
      | None => a
      end
  end.

Definition run (ticks : list tick) (a : App.t) : App.t :=
  fold_left step ticks a.

(** The loop of the wake-word thread is running. *)
Definition looping (a : App.t) : bool :=
  match App.wake_word_thread a with
  | Some th =>
      match WakeWord.where_ th with
      | WakeWord.Looping => true
      | _ => false
      end
  | None => false
  end.

End Session.

(* ===================================================================== *)
(** ** main.py *)
(* ===================================================================== *)

Module Main.

(** The namespace returned by [parser.parse_args()]. *)
Record args : Type := {
  model : string;
  system_prompt : option string;
  prompt_file : option string;
  wake_word : string
}.

(** The namespace for a command line without options. *)
Definition defaults : args :=
  {| model := "gemma3:4b"; system_prompt := None; prompt_file := None;
     wake_word := "google" |}.

(** [parse_arguments] after the parsing itself; [inl 1] is [sys.exit(1)]. *)
Definition parse_arguments (parsed : args) (fs : Fs.t) : nat + args :=
  match prompt_file parsed with
  | Some (String c path) =>
      match Fs.read_text (String c path) fs with
      | Some content =>
          inr {| model := model parsed;
                 system_prompt := Some (Py.strip content);
                 prompt_file := prompt_file parsed;
                 wake_word := wake_word parsed |}
      | None => inl 1
      end
  | _ => inr parsed
  end.

(** [main]: the controller as it is constructed, with the model and the
    system prompt it is given. *)
Definition main (parsed : args) (fs : Fs.t)
  : nat + (App.t * string * option string) :=
  match parse_arguments parsed fs with
  | inl code => inl code
  | inr a => inr (App.init (wake_word a), model a, system_prompt a)
  end.

End Main.


(* ===================================================================== *)
(** * Theorems *)
(* ===================================================================== *)

(** ** Strings *)

Section Strings.
Import Py.

Lemma append_nil_l (b : string) : "" ++ b = b.
Proof. reflexivity. Qed.

Lemma append_cons (c : ascii) (a b : string) :
  String c a ++ b = String c (a ++ b).
Proof. reflexivity. Qed.

Lemma length_append (a b : string) :
  String.length (a ++ b) = String.length a + String.length b.
Proof.
  induction a as [|c a IH]; [reflexivity|].
  rewrite append_cons. simpl. now rewrite IH.
Qed.

Lemma append_nil_r (a : string) : a ++ "" = a.
Proof.
  induction a as [|c a IH]; [reflexivity|].
  rewrite append_cons. now rewrite IH.
Qed.

Lemma append_assoc (a b c : string) : (a ++ b) ++ c = a ++ b ++ c.
Proof.
  induction a as [|x a IH]; [reflexivity|].
  rewrite !append_cons. now rewrite IH.
Qed.

Lemma drop_length (n : nat) (s : string) :
  String.length (drop n s) = String.length s - n.
Proof.
  revert s; induction n as [|n IH]; intros [|c s]; simpl; try lia.
  apply IH.
Qed.

Lemma drop_nil (n : nat) : drop n "" = "".
Proof. now destruct n. Qed.

Lemma drop_all (n : nat) (s : string) : String.length s <= n -> drop n s = "".
Proof.
  revert s; induction n as [|n IH]; intros [|c s]; simpl; intros Hl;
    try reflexivity; try lia.
  apply IH; lia.
Qed.

Lemma drop_append (a b : string) : drop (String.length a) (a ++ b) = b.
Proof. induction a as [|c a IH]; [reflexivity | exact IH]. Qed.

Lemma drop_append_l (n : nat) (a b : string) :
  n <= String.length a -> drop n (a ++ b) = drop n a ++ b.
Proof.
  revert a; induction n as [|n IH]; intros [|c a]; simpl; intros Hl;
    try reflexivity; try lia.
  rewrite ?append_cons; simpl; apply IH; lia.
Qed.

Lemma drop_append_r (n : nat) (a b : string) :
  String.length a <= n -> drop n (a ++ b) = drop (n - String.length a) b.
Proof.
  revert a; induction n as [|n IH]; intros [|c a]; simpl; intros Hl;
    try reflexivity; try lia.
  rewrite ?append_cons; simpl; apply IH; lia.
Qed.

Lemma drop_drop (n m : nat) (s : string) : drop n (drop m s) = drop (m + n) s.
Proof.
  revert s; induction m as [|m IH]; intros s; simpl; [reflexivity|].
  destruct s as [|c s]; [now rewrite drop_nil | apply IH].
Qed.

Lemma last_chars_length (n : nat) (s : string) :
  String.length (last_chars n s) = Nat.min n (String.length s).
Proof. unfold last_chars. rewrite drop_length. lia. Qed.

Lemma last_chars_short (n : nat) (s : string) :
  String.length s <= n -> last_chars n s = s.
Proof.
  intros Hl. unfold last_chars.
  replace (String.length s - n) with 0 by lia. reflexivity.
Qed.

(** Cutting to the last [n] characters before appending does not change
    the last [n] characters of the result. *)
Lemma last_chars_append (n : nat) (a b : string) :
  last_chars n (last_chars n a ++ b) = last_chars n (a ++ b).
Proof.
  unfold last_chars.
  rewrite !length_append, drop_length.
  destruct (Nat.le_gt_cases (String.length a) n) as [Hs|Hl].
  - replace (String.length a - n) with 0 by lia. simpl.
    now replace (String.length a - 0) with (String.length a) by lia.
  - set (k := String.length a - n).
    assert (Hk : k <= String.length a) by (unfold k; lia).
    replace (String.length a - k) with n by (unfold k; lia).
    destruct (Nat.le_gt_cases (String.length b) n) as [Hb|Hb].
    + rewrite (drop_append_l (String.length a + String.length b - n) a b)
        by lia.
      rewrite (drop_append_l (n + String.length b - n) (drop k a) b)
        by (rewrite drop_length; unfold k; lia).
      rewrite drop_drop. f_equal. f_equal. unfold k. lia.
    + rewrite (drop_append_r (String.length a + String.length b - n) a b)
        by lia.
      rewrite (drop_append_r (n + String.length b - n) (drop k a) b)
        by (rewrite drop_length; unfold k; lia).
      rewrite drop_length. f_equal. unfold k. lia.
Qed.

End Strings.

(** ** Trimming, cutting and splitting *)

Section Trimming.
Import Py Phrase.

Lemma rstrip_cons (c : ascii) (s : string) :
  rstrip (String c s) =
  match rstrip s with
  | "" => if isspace c then "" else String c ""
  | r => String c r
  end.
Proof. reflexivity. Qed.

Lemma lstrip_head (c : ascii) (s : string) :
  isspace c = false -> lstrip (String c s) = String c s.
Proof. intros E. simpl. now rewrite E. Qed.

Lemma lstrip_idem (s : string) : lstrip (lstrip s) = lstrip s.
Proof.
  induction s as [|c s IH]; [reflexivity|].
  simpl. destruct (isspace c) eqn:E; [exact IH | now apply lstrip_head].
Qed.

Lemma rstrip_idem (s : string) : rstrip (rstrip s) = rstrip s.
Proof.
  induction s as [|c s IH]; [reflexivity|].
  rewrite rstrip_cons. destruct (rstrip s) as [|d r] eqn:E.
  - destruct (isspace c) eqn:Ec; [reflexivity|].
    rewrite rstrip_cons. simpl. now rewrite Ec.
  - rewrite rstrip_cons, IH. reflexivity.
Qed.

Lemma lstrip_rstrip (s : string) : lstrip (rstrip s) = rstrip (lstrip s).
Proof.
  induction s as [|c s IH]; [reflexivity|].
  rewrite rstrip_cons. simpl lstrip at 2.
  destruct (isspace c) eqn:Ec.
  - rewrite <- IH. destruct (rstrip s) as [|d r]; [reflexivity|].
    simpl. now rewrite Ec.
  - rewrite rstrip_cons, Ec.
    destruct (rstrip s) as [|d r]; now apply lstrip_head.
Qed.

Lemma strip_idem (s : string) : strip (strip s) = strip s.
Proof.
  unfold strip. now rewrite lstrip_rstrip, lstrip_idem, rstrip_idem.
Qed.

Lemma lstrip_strip (s : string) : lstrip (strip s) = strip s.
Proof. unfold strip. now rewrite lstrip_rstrip, lstrip_idem. Qed.

Section Cut.
Variable q : ascii -> bool.
Hypothesis q_not_space : forall c, q c = true -> isspace c = false.

Lemma lstrip_cut (s : string) : lstrip (cut_at q s) = cut_at q (lstrip s).
Proof.
  induction s as [|c s IH]; [reflexivity|].
  simpl. destruct (isspace c) eqn:Ec.
  - destruct (q c) eqn:Eq; [apply q_not_space in Eq; congruence|].
    simpl. now rewrite Ec.
  - simpl. destruct (q c); [reflexivity | now apply lstrip_head].
Qed.

Lemma rstrip_cut (s : string) :
  rstrip (cut_at q (rstrip s)) = rstrip (cut_at q s).
Proof.
  induction s as [|c s IH]; [reflexivity|].
  rewrite rstrip_cons. simpl cut_at at 2.
  destruct (q c) eqn:Eq.
  - rewrite (q_not_space c Eq).
    destruct (rstrip s); simpl; now rewrite Eq.
  - rewrite rstrip_cons, <- IH.
    destruct (rstrip s) as [|d r] eqn:E.
    + simpl. destruct (isspace c) eqn:Ec; [reflexivity|].
      simpl. rewrite Eq. simpl. now rewrite Ec.
    + simpl cut_at at 1. rewrite Eq. now rewrite rstrip_cons.
Qed.

Lemma strip_cut (s : string) :
  strip (cut_at q (strip s)) = strip (cut_at q s).
Proof.
  unfold strip at 1. rewrite lstrip_cut, lstrip_strip.
  unfold strip at 1. rewrite rstrip_cut.
  unfold strip. now rewrite lstrip_cut.
Qed.

End Cut.

Lemma cut_cut (p q : ascii -> bool) (s : string) :
  cut_at q (cut_at p s) = cut_at (fun c => p c || q c) s.
Proof.
  induction s as [|c s IH]; [reflexivity|].
  simpl. destruct (p c); simpl; [reflexivity|].
  destruct (q c); [reflexivity | now rewrite IH].
Qed.

Lemma cut_ext (p q : ascii -> bool) (s : string) :
  (forall c, p c = q c) -> cut_at p s = cut_at q s.
Proof.
  intros E. induction s as [|c s IH]; [reflexivity|].
  simpl. rewrite E, IH. reflexivity.
Qed.

Lemma prefix_nil (s : string) : String.prefix "" s = true.
Proof. now destruct s. Qed.

Lemma partition_eq (sep s : string) :
  partition sep s =
  if String.prefix sep s then Some ("", drop (String.length sep) s)
  else
    match s with
    | "" => None
    | String c s' =>
        match partition sep s' with
        | Some (a, b) => Some (String c a, b)
        | None => None
        end
    end.
Proof. now destruct s. Qed.

Lemma str_in_eq (sub s : string) :
  str_in sub s =
  String.prefix sub s ||
  match s with
  | "" => false
  | String _ s' => str_in sub s'
  end.
Proof. now destruct s. Qed.

Lemma after_phrase_eq (phrase s : string) :
  after_phrase phrase s =
  if String.prefix phrase s then drop (String.length phrase) s
  else
    match s with
    | "" => ""
    | String _ s' => after_phrase phrase s'
    end.
Proof. now destruct s. Qed.

(** [sub in s] holds exactly when [s] splits at [sub]. *)
Lemma str_in_partition (sep s : string) :
  str_in sep s = match partition sep s with Some _ => true | None => false end.
Proof.
  induction s as [|c s IH]; rewrite str_in_eq, partition_eq.
  - now destruct (String.prefix sep "").
  - destruct (String.prefix sep (String c s)); [reflexivity|].
    simpl. rewrite IH. now destruct (partition sep s) as [[a b]|].
Qed.

(** Under the guard [sep in s] the split has two parts, so that the index 1
    of the call sites is in range. *)
Lemma split1_length (sep s : string) :
  str_in sep s = true -> length (split1 sep s) = 2.
Proof.
  rewrite str_in_partition. unfold split1.
  now destruct (partition sep s) as [[a b]|].
Qed.

Lemma partition_after (sep s a b : string) :
  partition sep s = Some (a, b) -> b = after_phrase sep s.
Proof.
  revert a b. induction s as [|c s IH]; intros a b;
    rewrite partition_eq, after_phrase_eq.
  - destruct (String.prefix sep ""); congruence.
  - destruct (String.prefix sep (String c s)); [congruence|].
    destruct (partition sep s) as [[a' b']|]; [|discriminate].
    intros E. injection E as _ <-. now apply (IH a').
Qed.

Lemma split1_after (sep s : string) :
  str_in sep s = true -> item 1 (split1 sep s) = after_phrase sep s.
Proof.
  rewrite str_in_partition. unfold split1.
  destruct (partition sep s) as [[a b]|] eqn:E; [|discriminate].
  intros _. simpl. now apply (partition_after sep s a).
Qed.

(** Splitting at a single character. *)
Lemma partition_char (c : ascii) (s : string) :
  match partition (String c "") s with
  | Some (a, _) => a = cut_at (Ascii.eqb c) s
  | None => cut_at (Ascii.eqb c) s = s
  end.
Proof.
  induction s as [|d s IH]; [reflexivity|].
  rewrite partition_eq. simpl String.prefix. simpl cut_at.
  destruct (ascii_dec c d) as [->|Hne].
  - rewrite prefix_nil, Ascii.eqb_refl. reflexivity.
  - apply Ascii.eqb_neq in Hne. rewrite Hne.
    destruct (partition (String c "") s) as [[a b]|]; now rewrite IH.
Qed.

Lemma remove_ending_char (c : ascii) (place : string) :
  strip place = place ->
  remove_ending place (String c "") = strip (cut_at (Ascii.eqb c) place).
Proof.
  intros Hs. unfold remove_ending. rewrite str_in_partition. unfold split1.
  pose proof (partition_char c place) as Hc.
  destruct (partition (String c "") place) as [[a b]|].
  - simpl. now rewrite Hc.
  - now rewrite Hc, Hs.
Qed.

Lemma sentence_end_not_space (c : ascii) :
  sentence_end c = true -> isspace c = false.
Proof.
  unfold sentence_end. intros E.
  apply orb_true_iff in E as [E|E]; [apply orb_true_iff in E as [E|E]|];
    apply Ascii.eqb_eq in E; subst c; reflexivity.
Qed.

Lemma eqb_not_space (m c : ascii) :
  isspace m = false -> Ascii.eqb m c = true -> isspace c = false.
Proof. intros Hm E. apply Ascii.eqb_eq in E. now subst c. Qed.

(** The three passes of the loop over the endings cut the text at its first
    sentence-ending mark. *)
Lemma remove_endings_strip (r : string) :
  remove_endings (strip r) = strip (before_mark r).
Proof.
  unfold remove_endings, endings, before_mark. simpl fold_left.
  rewrite (remove_ending_char "." (strip r)) by apply strip_idem.
  rewrite (remove_ending_char "?") by apply strip_idem.
  rewrite (remove_ending_char "!") by apply strip_idem.
  rewrite (strip_cut (Ascii.eqb ".")) by (intros c; now apply eqb_not_space).
  rewrite (strip_cut (Ascii.eqb "?")) by (intros c; now apply eqb_not_space).
  rewrite (strip_cut (Ascii.eqb "!")) by (intros c; now apply eqb_not_space).
  rewrite !cut_cut. f_equal. apply cut_ext. intros c.
  unfold sentence_end. now rewrite !(Ascii.eqb_sym c), orb_assoc.
Qed.

(** The scan of the phrases, in the words of the specification. *)
Lemma scan_spec (phrases : list string) (t : string) :
  scan phrases t =
  match first_phrase phrases t with
  | None => None
  | Some phrase =>
      match strip (before_mark (after_phrase phrase t)) with
      | "" => None
      | place => Some place
      end
  end.
Proof.
  unfold first_phrase.
  induction phrases as [|p ps IH]; [reflexivity|].
  simpl. destruct (str_in p t) eqn:E; [|exact IH].
  rewrite split1_after by exact E.
  rewrite remove_endings_strip.
  now destruct (strip (before_mark (after_phrase p t))).
Qed.

End Trimming.

(** ** Lower-cased text *)

Section Lowered.
Import Py Phrase.

Lemma lower_char_idem (c : ascii) : lower_char (lower_char c) = lower_char c.
Proof. destruct c as [[] [] [] [] [] [] [] []]; reflexivity. Qed.

Lemma lower_idem (s : string) : lower (lower s) = lower s.
Proof.
  induction s as [|c s IH]; [reflexivity|].
  simpl. now rewrite lower_char_idem, IH.
Qed.

Lemma lowered_cons (c : ascii) (s : string) :
  lower (String c s) = String c s -> lower_char c = c /\ lower s = s.
Proof. simpl. intros E. now injection E. Qed.

Lemma lowered_drop (n : nat) (s : string) :
  lower s = s -> lower (drop n s) = drop n s.
Proof.
  revert s. induction n as [|n IH]; intros [|c s] E; try exact E.
  apply lowered_cons in E as [_ E]. simpl. now apply IH.
Qed.

Lemma lowered_after_phrase (phrase s : string) :
  lower s = s -> lower (after_phrase phrase s) = after_phrase phrase s.
Proof.
  induction s as [|c s IH]; intros E; rewrite after_phrase_eq.
  - now destruct (String.prefix phrase ""); [apply lowered_drop|].
  - destruct (String.prefix phrase (String c s)); [now apply lowered_drop|].
    apply lowered_cons in E as [_ E]. now apply IH.
Qed.

Lemma lowered_cut_at (stop : ascii -> bool) (s : string) :
  lower s = s -> lower (cut_at stop s) = cut_at stop s.
Proof.
  induction s as [|c s IH]; intros E; [reflexivity|].
  apply lowered_cons in E as [Ec E]. simpl.
  destruct (stop c); [reflexivity|]. simpl. now rewrite Ec, IH.
Qed.

Lemma lowered_lstrip (s : string) : lower s = s -> lower (lstrip s) = lstrip s.
Proof.
  induction s as [|c s IH]; intros E; [reflexivity|].
  simpl. destruct (isspace c); [|exact E].
  apply lowered_cons in E as [_ E]. now apply IH.
Qed.

Lemma lowered_rstrip (s : string) : lower s = s -> lower (rstrip s) = rstrip s.
Proof.
  induction s as [|c s IH]; intros E; [reflexivity|].
  apply lowered_cons in E as [Ec E]. rewrite rstrip_cons.
  specialize (IH E). destruct (rstrip s) as [|d r].
  - destruct (isspace c); [reflexivity|]. simpl. now rewrite Ec.
  - change (lower (String c (String d r)))
      with (String (lower_char c) (lower (String d r))).
    now rewrite Ec, IH.
Qed.

Lemma lowered_strip (s : string) : lower s = s -> lower (strip s) = strip s.
Proof. intros E. unfold strip. now apply lowered_rstrip, lowered_lstrip. Qed.

(** What the scan returns is text of its lower-cased input. *)
Lemma scan_lowered (phrases : list string) (t place : string) :
  lower t = t -> scan phrases t = Some place -> lower place = place.
Proof.
  intros Ht. rewrite scan_spec.
  destruct (first_phrase phrases t) as [phrase|]; [|discriminate].
  assert (Hl : lower (strip (before_mark (after_phrase phrase t)))
               = strip (before_mark (after_phrase phrase t))).
  { now apply lowered_strip, lowered_cut_at, lowered_after_phrase. }
  destruct (strip (before_mark (after_phrase phrase t))); [discriminate|].
  intros E. injection E as <-. exact Hl.
Qed.

End Lowered.

(** ** The weather service: location extraction *)

(** C6. [extract_location] returns, for the first phrase of its list found
    in the lower-cased input, the remainder after that phrase cut at the
    first sentence-ending mark and trimmed, and no value when that is empty
    or when no phrase is found ([Phrase.extract_spec] says exactly this);
    on "what's the weather in Paris" it returns "paris". *)
Theorem extract_location_first_phrase :
  (forall text : string,
     Weather.extract_location text
     = Phrase.extract_spec Weather.location_phrases text)
  /\ Weather.extract_location "what's the weather in Paris" = Some "paris".
Proof.
  split; [|reflexivity].
  intros text. unfold Weather.extract_location, Phrase.extract_spec.
  apply scan_spec.
Qed.

(** ** The weather service: the forecast block *)

Section Forecast.
Import Py Weather.

Lemma hour_line_stem (h : hour) :
  hour_line h = hour_stem h ++ rain_chance h ++ nl.
Proof. unfold hour_line, hour_stem. now rewrite !append_assoc. Qed.

Lemma rain_suffix_length (n : Z) : 0 < String.length (rain_suffix n).
Proof. unfold rain_suffix. rewrite length_append. simpl. lia. Qed.

Lemma fold_hour_lines (hs : list hour) (sky_text : string) :
  fold_left (fun sky_text h => sky_text ++ hour_line h) hs sky_text
  = sky_text ++ join (map hour_line hs).
Proof.
  revert sky_text. induction hs as [|h hs IH]; intros sky_text; simpl.
  - now rewrite append_nil_r.
  - now rewrite IH, append_assoc.
Qed.

Lemma format_preamble (w : weather_data) (h : hour) (hs : list hour) :
  upcoming_hours w = Some (h :: hs) ->
  format_weather_data_for_prompt (Some w)
  = preamble w ++ nl ++ "Upcoming Hours:" ++ nl
    ++ join (map hour_line (h :: hs)).
Proof.
  intros E. unfold format_weather_data_for_prompt, preamble. rewrite E.
  rewrite fold_hour_lines.
  destruct (today_high w), (today_low w), (sunrise w), (sunset w);
    now rewrite ?append_nil_r, ?append_assoc.
Qed.

(** C7. In the block of the upcoming hours written by
    [format_weather_data_for_prompt], the line of every entry carries the
    suffix " (N% chance of rain)" exactly when its chance of rain is greater
    than zero, and is the bare line exactly when it is not. *)
Theorem rain_suffix_iff_positive
    (w : Weather.weather_data) (h : Weather.hour) (hs : list Weather.hour) :
  Weather.upcoming_hours w = Some (h :: hs) ->
  Weather.format_weather_data_for_prompt (Some w)
  = Weather.preamble w ++ Py.nl ++ "Upcoming Hours:" ++ Py.nl
    ++ Py.join (map Weather.hour_line (h :: hs))
  /\ Forall
       (fun x =>
          (Weather.hour_line x
           = Weather.hour_stem x
             ++ Weather.rain_suffix (Weather.chance_of_rain x) ++ Py.nl
           <-> (0 < Weather.chance_of_rain x)%Z)
          /\ (Weather.hour_line x = Weather.hour_stem x ++ Py.nl
              <-> (Weather.chance_of_rain x <= 0)%Z))
       (h :: hs).
Proof.
  intros E. split; [now apply format_preamble|].
  apply Forall_forall. intros x _.
  rewrite hour_line_stem. unfold rain_chance.
  pose proof (rain_suffix_length (chance_of_rain x)) as Hlen.
  destruct (Z.ltb_spec 0 (chance_of_rain x)) as [Hpos|Hle].
  - split; split; try lia; try reflexivity.
    intros Heq. apply String.app_inj in Heq.
    apply (f_equal String.length) in Heq.
    rewrite length_append in Heq. fold (rain_suffix (chance_of_rain x)) in Heq.
    lia.
  - split; split; try lia; try reflexivity.
    intros Heq. apply String.app_inj in Heq.
    apply (f_equal String.length) in Heq.
    rewrite length_append in Heq. simpl in Heq. lia.
Qed.

End Forecast.

Lemma rain_suffix_iff_positive_witness :
  let dry := {| Weather.time := "14:00"; Weather.hour_temperature := 70;
                Weather.hour_description := "Sunny";
                Weather.chance_of_rain := 0 |} in
  let wet := {| Weather.time := "15:00"; Weather.hour_temperature := 68;
                Weather.hour_description := "Light rain";
                Weather.chance_of_rain := 40 |} in
  let w := {| Weather.location := "Paris"; Weather.region := "Ile-de-France";
              Weather.country := "France"; Weather.temperature := 70;
              Weather.feels_like := 69; Weather.humidity := 40;
              Weather.description := "Clear"; Weather.kind := "SUNNY";
              Weather.wind_speed := 5; Weather.wind_direction := "NORTH";
              Weather.local_time := "2024-06-05 13:45:00";
              Weather.current_time := "2024-06-05 13:45:02";
              Weather.today_high := Some 75%Z; Weather.today_low := Some 55%Z;
              Weather.sunrise := Some "05:50"; Weather.sunset := Some "21:50";
              Weather.upcoming_hours := Some [dry; wet] |} in
  Weather.hour_line dry = "- 14:00: 70" ++ Py.degree ++ "F, Sunny" ++ Py.nl
  /\ Weather.hour_line wet
     = "- 15:00: 68" ++ Py.degree ++ "F, Light rain (40% chance of rain)"
       ++ Py.nl
  /\ Weather.format_weather_data_for_prompt (Some w)
     = Weather.preamble w ++ Py.nl ++ "Upcoming Hours:" ++ Py.nl
       ++ Weather.hour_line dry ++ Weather.hour_line wet.
Proof.
  intros dry wet w.
  destruct (rain_suffix_iff_positive w dry [wet] eq_refl) as [E F].
  split; [reflexivity|]. split; [reflexivity|].
  rewrite E. reflexivity.
Defined.

(** ** The controller: the rolling response buffer *)

Section Rolling.
Import Py Json App.

Lemma on_thought_buffer (fragment : string) (s : streaming) :
  full_response (on_thought fragment s)
  = last_chars buffer_size (full_response s ++ fragment).
Proof.
  unfold on_thought. simpl.
  destruct (decide (buffer_size < String.length (full_response s ++ fragment)));
    [reflexivity|].
  symmetry. apply last_chars_short. lia.
Qed.

Lemma on_thought_shown (fragment : string) (s : streaming) :
  shown (on_thought fragment s)
  = (full_response (on_thought fragment s),
     item 0 (rsplit1 marker (answer_text s)) ++ marker
     ++ full_response (on_thought fragment s)) :: shown s.
Proof. reflexivity. Qed.

Lemma on_thought_capped (fragment : string) (s : streaming) :
  String.length (full_response (on_thought fragment s)) <= buffer_size.
Proof. rewrite on_thought_buffer, last_chars_length. lia. Qed.

Lemma stream_loop_nil (final : Model.outcome) (s : streaming) :
  fst (stream_loop [] final s) = s.
Proof. now destruct final. Qed.

Lemma stream_loop_shown (brain_stream : list (bool * value))
    (final : Model.outcome) (s : streaming) :
  Forall update_ok (shown s) ->
  Forall update_ok (shown (fst (stream_loop brain_stream final s))).
Proof.
  revert s. induction brain_stream as [|[stop thought] rest IH]; intros s Hs;
    [now rewrite stream_loop_nil|].
  simpl. destruct stop; [exact Hs|].
  destruct thought; try exact Hs.
  apply IH. rewrite on_thought_shown. constructor; [|exact Hs].
  split; [apply on_thought_capped | now eexists].
Qed.

Lemma stream_loop_buffer (brain_stream : list (bool * value))
    (final : Model.outcome) (s : streaming) :
  String.length (full_response s) <= buffer_size ->
  full_response (fst (stream_loop brain_stream final s))
  = last_chars buffer_size (full_response s ++ join (consumed brain_stream)).
Proof.
  revert s. induction brain_stream as [|[stop thought] rest IH]; intros s Hs.
  - rewrite stream_loop_nil. simpl. rewrite append_nil_r. symmetry.
    now apply last_chars_short.
  - simpl. destruct stop;
      [rewrite append_nil_r; symmetry; now apply last_chars_short|].
    destruct thought;
      try (simpl; rewrite append_nil_r; symmetry; now apply last_chars_short).
    rewrite IH by apply on_thought_capped.
    rewrite on_thought_buffer, last_chars_append. simpl join.
    now rewrite append_assoc.
Qed.

Lemma stream_loop_count (brain_stream : list (bool * value))
    (final : Model.outcome) (s : streaming) :
  length (shown (fst (stream_loop brain_stream final s)))
  = length (consumed brain_stream) + length (shown s).
Proof.
  revert s. induction brain_stream as [|[stop thought] rest IH]; intros s;
    [now rewrite stream_loop_nil|].
  simpl. destruct stop; [reflexivity|].
  destruct thought; try reflexivity.
  rewrite IH, on_thought_shown. simpl. lia.
Qed.

End Rolling.

(** C4. Whatever fragments are streamed and wherever the loop is left, the
    rolling buffer never exceeds 1024 characters: every display update shows
    a buffer within the bound, after the marker, and the buffer holds the
    last 1024 characters of the fragments appended so far. *)
Theorem rolling_buffer_capped
    (brain_stream : list (bool * Json.value)) (final : Model.outcome)
    (transcript : string) :
  let s :=
    fst (App.stream_loop brain_stream final (App.start_streaming transcript))
  in
  App.buffer_size = 1024
  /\ Forall App.update_ok (App.shown s)
  /\ length (App.shown s) = length (App.consumed brain_stream)
  /\ String.length (App.full_response s) <= App.buffer_size
  /\ App.full_response s
     = Py.last_chars App.buffer_size (Py.join (App.consumed brain_stream)).
Proof.
  intros s. subst s. split; [reflexivity|].
  split; [apply stream_loop_shown; constructor|].
  split; [rewrite stream_loop_count; simpl; lia|].
  assert (E : App.full_response
                (fst (App.stream_loop brain_stream final
                        (App.start_streaming transcript)))
              = Py.last_chars App.buffer_size
                  (Py.join (App.consumed brain_stream))).
  { rewrite stream_loop_buffer by (simpl; lia). reflexivity. }
  split; [|exact E].
  rewrite E, last_chars_length. lia.
Qed.

(** ** The controller: stop-all *)

Lemma stop_all_classes (a : App.t) :
  App.classes (App.status_light (App.stop_all a))
  = App.classes (App.status_light a) ∖ {["listening"]} ∖ {["processing"]}
      ∖ {["error"]} ∖ {["wake-word"]} ∪ {["idle"]}.
Proof. reflexivity. Qed.

Ltac classes_membership :=
  rewrite ?elem_of_union, ?elem_of_difference, ?elem_of_singleton;
  intuition (congruence || discriminate).

(** C5. After [stop_all] the three mode flags are false, the stop signal is
    set, and the indicator carries the idle category and none of the other
    four: of the five categories exactly [idle] is among its classes. *)
Theorem stop_all_idle (a : App.t) :
  let a' := App.stop_all a in
  App.should_listen a' = false
  /\ App.detecting_wake_word a' = false
  /\ App.direct_listening_mode a' = false
  /\ App.stop_event a' = true
  /\ App.status (App.status_light a') = "idle"
  /\ ("idle" ∈ App.classes (App.status_light a'))
  /\ ("listening" ∉ App.classes (App.status_light a'))
  /\ ("processing" ∉ App.classes (App.status_light a'))
  /\ ("error" ∉ App.classes (App.status_light a'))
  /\ ("wake-word" ∉ App.classes (App.status_light a'))
  /\ Forall (fun c => c ∈ App.classes (App.status_light a') <-> c = "idle")
       App.categories.
Proof.
  intros a'. subst a'.
  repeat (split; [reflexivity|]).
  rewrite stop_all_classes.
  repeat split; try (unfold not; classes_membership).
  repeat constructor; classes_membership.
Qed.

(** ** Speech capture *)

(** C8. When the recognition succeeds with an empty transcript, the worker
    makes the two status updates it had made by then and nothing else:
    neither the response callback nor the restart callback is called, and
    the status stays at "processing speech...". *)
Theorem empty_transcript_is_silent (e : Stt.env) :
  Stt.microphone e = None ->
  Stt.calibration e = None ->
  Stt.before_listen (Stt.stop e) = false ->
  Stt.listen e = Stt.Sample ->
  Stt.after_capture (Stt.stop e) = false ->
  Stt.recognize e = Stt.Words "" ->
  let calls := Stt.listen_to_microphone true e in
  calls = [Stt.UpdateStatus "listening..." "listening";
           Stt.UpdateStatus "processing speech..." "processing"]
  /\ existsb Stt.is_response calls = false
  /\ existsb Stt.is_restart calls = false
  /\ Stt.last_status calls = Some ("processing speech...", "processing").
Proof.
  intros Hm Hc Hb Hl Ha Hr calls. subst calls.
  unfold Stt.listen_to_microphone.
  rewrite Hm, Hc, Hb, Hl, Ha, Hr. simpl.
  destruct (Stt.after_recognition (Stt.stop e)); repeat split.
Qed.

Lemma empty_transcript_is_silent_witness :
  let e := {| Stt.microphone := None;
              Stt.calibration := None;
              Stt.listen := Stt.Sample;
              Stt.recognize := Stt.Words "";
              Stt.stop := {| Stt.before_listen := false;
                             Stt.on_timeout := false;
                             Stt.after_capture := false;
                             Stt.after_recognition := false;
                             Stt.on_error := false |} |} in
  Stt.listen_to_microphone true e
  = [Stt.UpdateStatus "listening..." "listening";
     Stt.UpdateStatus "processing speech..." "processing"].
Proof.
  intros e.
  exact (proj1 (empty_transcript_is_silent e eq_refl eq_refl eq_refl eq_refl
                  eq_refl eq_refl)).
Defined.

(** ** The streaming client *)

Section Records.
Import Json.

Lemma dict_has_item (key : string) (d : dict) :
  dict_has key d = true -> exists v, dict_item key d = Some v.
Proof.
  induction d as [|[k v] d IH]; [discriminate|].
  unfold dict_has. simpl. destruct (String.eqb k key); [now eexists|].
  exact IH.
Qed.

Lemma dict_item_has (key : string) (d : dict) :
  dict_has key d = false -> dict_item key d = None.
Proof.
  induction d as [|[k v] d IH]; [reflexivity|].
  unfold dict_has. simpl. destruct (String.eqb k key); [discriminate|].
  exact IH.
Qed.

Lemma prefix_refl (s : string) : String.prefix s s = true.
Proof.
  induction s as [|c s IH]; [reflexivity|].
  simpl. now destruct (ascii_dec c c).
Qed.

(** A text occurs in whatever is put in front of it. *)
Lemma str_in_append (p e : string) : Py.str_in e (p ++ e) = true.
Proof.
  induction p as [|c p IH]; rewrite str_in_eq.
  - now rewrite append_nil_l, prefix_refl.
  - rewrite append_cons, IH. apply orb_true_r.
Qed.

End Records.

Section Client.
Import Json Model Protocol.
Context `{Library}.

Lemma brain_stream_cons (thought : string) (rest : list string) :
  brain_stream (thought :: rest) =
  match on_line thought with
  | (evs, Some e) => (evs, Raise e)
  | (evs, None) =>
      let '(evs', out) := brain_stream rest in ((evs ++ evs')%list, out)
  end.
Proof. reflexivity. Qed.

Lemma fragments_app (a b : list event) :
  fragments (a ++ b)%list = (fragments a ++ fragments b)%list.
Proof. unfold fragments. apply omap_app. Qed.

(** The loop on a line that carries a record. *)
Lemma on_line_record (line : string) (d : dict) :
  record_of line = Some d ->
  on_line line =
  match dict_item "response" d with
  | Some v => ([Yield v], None)
  | None =>
      if dict_has "error" d then
        let msg := "ollama api error: "
                   ++ format_value (dict_get "error" JNull d) in
        ([LogError msg], Some (OllamaAPIError msg))
      else ([], None)
  end.
Proof.
  unfold record_of, on_line.
  destruct line as [|c line]; [discriminate|].
  destruct (utf8_decode (String c line)) as [chunk|]; [|discriminate].
  destruct (json_loads chunk) as [e|[| | | | |d']]; try discriminate.
  intros E. injection E as ->. simpl.
  destruct (dict_has "response" d) eqn:Hr.
  - destruct (dict_has_item _ _ Hr) as [v Hv]. now rewrite Hv.
  - rewrite (dict_item_has _ _ Hr).
    destruct (dict_has "error" d) eqn:He; [|reflexivity].
    destruct (dict_has_item _ _ He) as [v Hv].
    unfold dict_get. now rewrite Hv.
Qed.

(** The loop on a line of a stream of records that carries none: nothing is
    yielded and nothing raised. *)
Lemma on_line_no_record (line : string) :
  record_line line = true -> record_of line = None ->
  fragments (on_line line).1 = [] /\ (on_line line).2 = None.
Proof.
  unfold record_line, record_of, on_line.
  destruct line as [|c line]; [now split|].
  destruct (utf8_decode (String c line)) as [chunk|]; [|discriminate].
  destruct (json_loads chunk) as [e|[| | | | |d']]; try discriminate;
    now split.
Qed.

(** C9. A line that parses to an object with neither a [response] nor an
    [error] field is dropped without a trace: the generator yields nothing,
    logs nothing, raises nothing and goes on with the next line; a line that
    does not parse is skipped too, but with a warning in the log. *)
Theorem other_record_dropped
    (thought chunk : string) (d : dict) (rest : list string) :
  thought <> "" ->
  utf8_decode thought = Some chunk ->
  json_loads chunk = inr (JObj d) ->
  dict_has "response" d = false ->
  dict_has "error" d = false ->
  on_line thought = ([], None)
  /\ brain_stream (thought :: rest) = brain_stream rest
  /\ forall (bad bad_chunk e : string),
       bad <> "" ->
       utf8_decode bad = Some bad_chunk ->
       json_loads bad_chunk = inl e ->
       on_line bad = ([LogWarning ("error parsing json response: " ++ e)], None)
       /\ brain_stream (bad :: rest)
          = (LogWarning ("error parsing json response: " ++ e)
               :: (brain_stream rest).1,
             (brain_stream rest).2).
Proof.
  intros Hne Hd Hj Hr He.
  assert (E : on_line thought = ([], None)).
  { unfold on_line. destruct thought; [congruence|].
    rewrite Hd, Hj. simpl. now rewrite Hr, He. }
  split; [exact E|]. split.
  - rewrite brain_stream_cons, E. now destruct (brain_stream rest).
  - intros bad bad_chunk e Hb Hbd Hbj.
    assert (E' : on_line bad
                 = ([LogWarning ("error parsing json response: " ++ e)], None)).
    { unfold on_line. destruct bad; [congruence|]. now rewrite Hbd, Hbj. }
    split; [exact E'|].
    rewrite brain_stream_cons, E'. now destruct (brain_stream rest).
Qed.

(** On every stream of records the client yields and ends as
    [stream_response_first] says. *)
Lemma observed_response_first (lines : list string) :
  forallb record_line lines = true ->
  observed lines = stream_response_first lines.
Proof.
  unfold observed, stream_response_first, records.
  induction lines as [|line rest IH]; [reflexivity|].
  intros Hl. apply andb_true_iff in Hl as [Hline Hrest].
  specialize (IH Hrest). rewrite brain_stream_cons. simpl omap.
  destruct (record_of line) as [d|] eqn:Er.
  - rewrite (on_line_record line d Er). simpl stream. unfold error_only.
    destruct (dict_item "response" d) as [v|] eqn:Ev.
    + assert (Hh : dict_has "response" d = true).
      { destruct (dict_has "response" d) eqn:Hh; [reflexivity|].
        rewrite (dict_item_has _ _ Hh) in Ev. discriminate. }
      rewrite Hh, andb_false_r.
      destruct (brain_stream rest) as [evs out].
      destruct (stream _ _) as [vs out']. simpl.
      injection IH as -> ->. reflexivity.
    + assert (Hh : dict_has "response" d = false).
      { destruct (dict_has "response" d) eqn:Hh; [|reflexivity].
        destruct (dict_has_item _ _ Hh) as [v Hv]. congruence. }
      rewrite Hh, andb_true_r.
      destruct (dict_has "error" d); [reflexivity|].
      destruct (brain_stream rest) as [evs out].
      destruct (stream _ _) as [vs out']. simpl.
      injection IH as -> ->. reflexivity.
  - destruct (on_line_no_record line Hline Er) as [Hf Hn].
    destruct (on_line line) as [evs o]. simpl in Hf, Hn. subst o.
    destruct (brain_stream rest) as [evs' out].
    rewrite fragments_app, Hf. exact IH.
Qed.

(** A request that reaches the server returns the generator over the
    streamed lines. *)
Lemma get_ollama_response_streaming
    (post : string -> dict -> http_result) (text model : string)
    (system_prompt : option string) (lines : list string) :
  post url (brain_food text model system_prompt) = Streaming lines ->
  get_ollama_response post text model system_prompt
  = inr (brain_stream lines).
Proof. intros E. unfold get_ollama_response. now rewrite E. Qed.

Lemma stream_ext (f g : dict -> bool) (recs : list dict) :
  Forall (fun d => f d = g d) recs -> stream f recs = stream g recs.
Proof.
  induction 1 as [|d recs Hd _ IH]; [reflexivity|].
  simpl. now rewrite Hd, IH.
Qed.

Lemma protocol_record_error (d : dict) :
  protocol_record d = true -> error_only d = has_error d.
Proof.
  unfold protocol_record, error_only, has_error.
  now destruct (dict_has "response" d), (dict_has "error" d).
Qed.

Lemma protocol_lines_records (lines : list string) :
  forallb protocol_line lines = true ->
  forallb record_line lines = true
  /\ Forall (fun d => error_only d = has_error d) (records lines).
Proof.
  unfold records.
  induction lines as [|line rest IH]; [now split|].
  simpl forallb. intros Hl. apply andb_true_iff in Hl as [Hline Hrest].
  destruct (IH Hrest) as [Hr Hp].
  unfold protocol_line in Hline. apply andb_true_iff in Hline as [Hrl Hpr].
  split; [now rewrite Hrl, Hr|].
  simpl omap. destruct (record_of line) as [d|]; [|exact Hp].
  constructor; [now apply protocol_record_error | exact Hp].
Qed.

(** On a stream of the model server the client follows the protocol of
    the claim. *)
Lemma observed_stated (lines : list string) :
  forallb protocol_line lines = true -> observed lines = stream_stated lines.
Proof.
  intros Hl. destruct (protocol_lines_records lines Hl) as [Hr Hp].
  rewrite (observed_response_first lines Hr).
  unfold stream_response_first, stream_stated. now apply stream_ext.
Qed.

(** C1. For every stream of newline-delimited records from the model
    server, [get_ollama_response] yields, in receipt order, the value of
    the [response] field of each parsed record, the string itself for a
    string, and on the first record containing an [error] field it raises
    the provider error, whose message contains the text of that field;
    empty lines and lines that do not parse are skipped and the stream
    goes on. *)
Theorem stream_follows_protocol
    (post : string -> dict -> http_result) (text model : string)
    (system_prompt : option string) (lines : list string) :
  post url (brain_food text model system_prompt) = Streaming lines ->
  forallb protocol_line lines = true ->
  get_ollama_response post text model system_prompt
  = inr (brain_stream lines)
  /\ observed lines = stream_stated lines
  /\ (forall (line : string) (d : dict) (fragment : string),
        record_of line = Some d ->
        dict_item "response" d = Some (JStr fragment) ->
        on_line line = ([Yield (JStr fragment)], None))
  /\ forall (d : dict) (error_text msg : string),
       dict_item "error" d = Some (JStr error_text) ->
       provider_error d = OllamaAPIError msg ->
       Py.str_in error_text msg = true.
Proof.
  intros Hp Hl. split; [now apply get_ollama_response_streaming|].
  split; [now apply observed_stated|]. split.
  - intros line d fragment Hr Hd.
    rewrite (on_line_record line d Hr). now rewrite Hd.
  - intros d error_text msg Hd. unfold provider_error, dict_get. rewrite Hd.
    simpl. intros E. injection E as <-. apply str_in_append.
Qed.

End Client.

Lemma stream_follows_protocol_witness :
  let lines :=
    [ Flat.record [("response", "Hel")];
      "no json here";
      Flat.record [("response", "lo")];
      Flat.record [("error", "boom")] ] in
  let post (_ : string) (_ : Json.dict) := Model.Streaming lines in
  @Model.get_ollama_response Flat.library post "hello" "gemma3:4b" None
  = inr ([Model.Yield (Json.JStr "Hel");
          Model.LogWarning "error parsing json response: Expecting value";
          Model.Yield (Json.JStr "lo");
          Model.LogError "ollama api error: boom"],
         Model.Raise (Json.OllamaAPIError "ollama api error: boom"))
  /\ @Protocol.observed Flat.library lines
     = ([Json.JStr "Hel"; Json.JStr "lo"],
        Model.Raise (Json.OllamaAPIError "ollama api error: boom"))
  /\ @Model.on_line Flat.library (Flat.record [("response", "Hel")])
     = ([Model.Yield (Json.JStr "Hel")], None)
  /\ Py.str_in "boom" "ollama api error: boom" = true.
Proof.
  intros lines post.
  destruct (@stream_follows_protocol Flat.library post "hello" "gemma3:4b"
              None lines eq_refl eq_refl) as (G & E & Y & M).
  split; [rewrite G; reflexivity|]. split; [rewrite E; reflexivity|]. split.
  - exact (Y (Flat.record [("response", "Hel")])
             [("response", Json.JStr "Hel")] "Hel" eq_refl eq_refl).
  - exact (M [("error", Json.JStr "boom")] "boom" _ eq_refl eq_refl).
Defined.

(** The stream of the specification's example: two fragments, then the
    provider error. *)
Example stream_hel_lo_boom :
  @Protocol.observed Flat.library
    [ Flat.record [("response", "Hel")];
      Flat.record [("response", "lo")];
      Flat.record [("error", "boom")] ]
  = ([Json.JStr "Hel"; Json.JStr "lo"],
     Model.Raise (Json.OllamaAPIError "ollama api error: boom")).
Proof. reflexivity. Qed.

Lemma other_record_dropped_witness :
  let rest := [Flat.record [("response", "lo")]] in
  @Model.brain_stream Flat.library (Flat.record [("done", "true")] :: rest)
  = @Model.brain_stream Flat.library rest
  /\ @Model.brain_stream Flat.library ("no json here" :: rest)
     = ([Model.LogWarning "error parsing json response: Expecting value";
         Model.Yield (Json.JStr "lo")], Model.Return).
Proof.
  intros rest.
  destruct (@other_record_dropped Flat.library
              (Flat.record [("done", "true")])
              (Flat.record [("done", "true")])
              [("done", Json.JStr "true")] rest
              ltac:(discriminate) eq_refl eq_refl eq_refl eq_refl)
    as (_ & E & W).
  split; [exact E|].
  destruct (W "no json here" "no json here" "Expecting value"
              ltac:(discriminate) eq_refl eq_refl) as [_ E'].
  rewrite E'. reflexivity.
Defined.

(** ** The flat decoder reads back what the encoder writes *)

Section FlatRoundTrip.
Import Json Flat.

Lemma read_escape_char (c : ascii) (t s r : string) :
  read_string t = Some (s, r) ->
  read_string (escape_char c ++ t) = Some (String c s, r).
Proof.
  intros E.
  destruct c as [[] [] [] [] [] [] [] []];
    match goal with
    | |- context [escape_char ?c] =>
        let e := eval vm_compute in (escape_char c) in
        change (escape_char c) with e
    end;
    rewrite ?append_cons, ?append_nil_l; simpl; now rewrite E.
Qed.

Lemma read_escape (s rest : string) :
  read_string (escape s ++ Py.dquote ++ rest) = Some (s, rest).
Proof.
  induction s as [|c s IH]; [reflexivity|].
  simpl escape. rewrite append_assoc. now apply read_escape_char.
Qed.

Lemma read_quote (s rest : string) :
  read_quoted (quote s ++ rest) = Some (s, rest).
Proof.
  unfold read_quoted, quote. rewrite !append_assoc.
  change (Py.dquote ++ escape s ++ Py.dquote ++ rest)
    with (String "034" (escape s ++ Py.dquote ++ rest)).
  simpl. apply read_escape.
Qed.

Lemma read_members_eq (fuel : nat) (acc : dict) (s : string) :
  read_members (S fuel) acc s =
  match read_quoted s with
  | None => None
  | Some (k, s1) =>
      match expect ":" s1 with
      | None => None
      | Some s2 =>
          match read_quoted s2 with
          | None => None
          | Some (v, s3) =>
              let acc' := dict_set k (JStr v) acc in
              match skip_ws s3 with
              | String c s4 =>
                  if Ascii.eqb c "," then read_members fuel acc' s4
                  else if Ascii.eqb c "}" then Some (acc', s4)
                  else None
              | "" => None
              end
          end
      end
  end.
Proof. reflexivity. Qed.

Lemma read_member_last (fuel : nat) (k v : string) (acc : dict)
    (rest : string) :
  read_members (S fuel) acc
    (quote k ++ String ":" (String " " (quote v ++ String "}" rest)))
  = Some (dict_set k (JStr v) acc, rest).
Proof.
  rewrite read_members_eq, read_quote. cbv beta iota.
  change (expect ":" (String ":" ?s)) with (Some s). cbv beta iota.
  change (read_quoted (String " " ?s)) with (read_quoted s).
  rewrite read_quote. reflexivity.
Qed.

(** The location file written by either service is read back as written,
    whatever the location. *)
Lemma loads_dumps_location (v : string) :
  loads (dumps (JObj [("location", JStr v)]))
  = inr (JObj [("location", JStr v)]).
Proof.
  unfold loads.
  change (dumps (JObj [("location", JStr v)]))
    with (String "{" (quote "location"
                      ++ String ":" (String " " (quote v ++ "}")))).
  change (expect "{" (String "{" ?s)) with (Some s). cbv beta iota.
  set (s1 := quote "location" ++ String ":" (String " " (quote v ++ "}"))).
  assert (Hq : s1 = String "034"
                      (escape "location" ++ Py.dquote
                       ++ String ":" (String " " (quote v ++ "}")))).
  { unfold s1, quote. now rewrite !append_assoc. }
  assert (He : expect "}" s1 = None) by now rewrite Hq.
  assert (Hf : String.length s1
               = S (String.length
                      (escape "location" ++ Py.dquote
                       ++ String ":" (String " " (quote v ++ "}")))))
    by now rewrite Hq.
  rewrite He, Hf. unfold s1. rewrite read_member_last. reflexivity.
Qed.

End FlatRoundTrip.

(** ** The location store *)

Section LocationStore.
Import Json.
Context `{Library}.

Lemma same_config_file :
  Weather.LOCATION_CONFIG_FILE = Intents.LOCATION_CONFIG_FILE
  /\ Weather.DEFAULT_LOCATION = Intents.DEFAULT_LOCATION.
Proof. split; reflexivity. Qed.

Lemma intents_get_is_weather_get (fs : Fs.t) :
  Intents.get_saved_location fs = Weather.get_saved_location fs.
Proof. reflexivity. Qed.

Lemma intents_save_is_weather_save (v : string) (fs : Fs.t) :
  Intents.save_location v fs = Weather.save_location v fs.
Proof. reflexivity. Qed.

Lemma read_after_save (v : string) (fs fs' : Fs.t) :
  json_loads (json_dumps (JObj [("location", JStr v)]))
  = inr (JObj [("location", JStr v)]) ->
  Weather.save_location v fs = (true, fs') ->
  Weather.get_saved_location fs' = JStr v.
Proof.
  intros Hrt. unfold Weather.save_location, Fs.write_text.
  destruct (decide (Weather.LOCATION_CONFIG_FILE ∈ Fs.locked fs));
    [discriminate|].
  intros E. injection E as <-.
  unfold Weather.get_saved_location, Fs.path_exists, Fs.read_text. simpl.
  rewrite lookup_insert_eq. rewrite bool_decide_true by eauto.
  now rewrite Hrt.
Qed.

Lemma read_without_file (fs : Fs.t) :
  Fs.path_exists Weather.LOCATION_CONFIG_FILE fs = false ->
  Weather.get_saved_location fs = JStr "Santa Cruz".
Proof. intros E. unfold Weather.get_saved_location. now rewrite E. Qed.

Lemma save_writes (v : string) (fs : Fs.t) :
  Weather.LOCATION_CONFIG_FILE ∉ Fs.locked fs ->
  Weather.save_location v fs
  = (true,
     {| Fs.files :=
          <[Weather.LOCATION_CONFIG_FILE :=
              json_dumps (JObj [("location", JStr v)])]> (Fs.files fs);
        Fs.locked := Fs.locked fs |}).
Proof.
  intros Hw. unfold Weather.save_location, Fs.write_text.
  now destruct (decide (Weather.LOCATION_CONFIG_FILE ∈ Fs.locked fs)).
Qed.

(** C2. A location saved through either service is read back as the same
    value through either service, given that the JSON library reads back
    what it wrote for that value; the save of either service succeeds, and
    writes the same file, whenever the config file can be opened for
    writing; and with no config file both services read "Santa Cruz". *)
Theorem saved_location_round_trip (v : string) (fs fs' : Fs.t) :
  json_loads (json_dumps (JObj [("location", JStr v)]))
  = inr (JObj [("location", JStr v)]) ->
  (Weather.save_location v fs = (true, fs') ->
   Weather.get_saved_location fs' = JStr v
   /\ Intents.get_saved_location fs' = JStr v)
  /\ (Intents.save_location v fs = (true, fs') ->
      Weather.get_saved_location fs' = JStr v
      /\ Intents.get_saved_location fs' = JStr v)
  /\ (Fs.path_exists Weather.LOCATION_CONFIG_FILE fs = false ->
      Weather.get_saved_location fs = JStr "Santa Cruz"
      /\ Intents.get_saved_location fs = JStr "Santa Cruz")
  /\ (Weather.LOCATION_CONFIG_FILE ∉ Fs.locked fs ->
      let written :=
        {| Fs.files :=
             <[Weather.LOCATION_CONFIG_FILE :=
                 json_dumps (JObj [("location", JStr v)])]> (Fs.files fs);
           Fs.locked := Fs.locked fs |} in
      Weather.save_location v fs = (true, written)
      /\ Intents.save_location v fs = (true, written)).
Proof.
  intros Hrt. repeat split.
  - now apply (read_after_save v fs).
  - rewrite intents_get_is_weather_get. now apply (read_after_save v fs).
  - rewrite intents_save_is_weather_save in *. now apply (read_after_save v fs).
  - rewrite intents_get_is_weather_get, intents_save_is_weather_save in *.
    now apply (read_after_save v fs).
  - now apply read_without_file.
  - rewrite intents_get_is_weather_get. now apply read_without_file.
  - now apply save_writes.
  - rewrite intents_save_is_weather_save. now apply save_writes.
Qed.

End LocationStore.

(** With the flat decoder the round trip holds for every location. *)
Lemma flat_location_round_trip (v : string) (fs fs' : Fs.t) :
  @Weather.save_location Flat.library v fs = (true, fs') ->
  @Intents.get_saved_location Flat.library fs' = Json.JStr v.
Proof.
  intros E. rewrite (@intents_get_is_weather_get Flat.library).
  apply (@read_after_save Flat.library v fs fs'); [|exact E].
  apply loads_dumps_location.
Qed.

(** Tokyo saved by the intent service in an empty directory and read by the
    weather service, and the other way round. *)
Lemma saved_location_round_trip_witness :
  let tokyo : Fs.t :=
    {| Fs.files :=
         {[ "location_config.json" :=
              "{" ++ Flat.quote "location" ++ ": " ++ Flat.quote "Tokyo" ++ "}" ]};
       Fs.locked := ∅ |} in
  (@Intents.save_location Flat.library "Tokyo" Fs.empty = (true, tokyo)
   /\ @Weather.get_saved_location Flat.library tokyo = Json.JStr "Tokyo"
   /\ @Intents.get_saved_location Flat.library tokyo = Json.JStr "Tokyo")
  /\ (@Weather.save_location Flat.library "Tokyo" Fs.empty = (true, tokyo)
      /\ @Intents.get_saved_location Flat.library tokyo = Json.JStr "Tokyo"
      /\ @Weather.get_saved_location Flat.library tokyo = Json.JStr "Tokyo")
  /\ @Weather.get_saved_location Flat.library Fs.empty = Json.JStr "Santa Cruz"
  /\ @Intents.get_saved_location Flat.library Fs.empty = Json.JStr "Santa Cruz".
Proof.
  intros tokyo.
  destruct (@saved_location_round_trip Flat.library "Tokyo" Fs.empty tokyo
              eq_refl) as (Hw & Hi & Hd & Hs).
  destruct (Hs ltac:(apply not_elem_of_empty)) as [Sw Si].
  assert (Et : {| Fs.files :=
                    <[Weather.LOCATION_CONFIG_FILE :=
                        @Json.json_dumps Flat.library
                          (Json.JObj [("location", Json.JStr "Tokyo")])]>
                      (Fs.files Fs.empty);
                  Fs.locked := Fs.locked Fs.empty |} = tokyo)
    by reflexivity.
  rewrite Et in Sw, Si.
  destruct (Hw Sw) as [Ww Wi]. destruct (Hi Si) as [Iw Ii].
  destruct (Hd eq_refl) as [Dw Di].
  repeat split; assumption.
Defined.

(** ** The intent service: the case of the location *)

Section LocationCase.
Import Json Intents.
Context `{Library} `{Spacy}.

Lemma fallback_lowered (txt place : string) :
  places (brain txt) = [] ->
  extract_location_from_text txt = Some place ->
  Py.lower place = place.
Proof.
  unfold extract_location_from_text. intros -> E.
  apply (scan_lowered location_phrases (Py.lower txt)); [|exact E].
  apply lower_idem.
Qed.

Lemma entity_verbatim (txt e : string) (rest : list string) :
  places (brain txt) = e :: rest ->
  extract_location_from_text txt = Some e.
Proof. unfold extract_location_from_text. now intros ->. Qed.

Lemma handle_saves_extracted (txt : string) (fs : Fs.t) (place : string) :
  (is_location_setting txt).1 = true ->
  truthy (is_location_setting txt).2 = false ->
  extract_location_from_text txt = Some place ->
  place <> "" ->
  LOCATION_CONFIG_FILE ∉ Fs.locked fs ->
  handle_location_setting txt fs
  = ((true, "i've set your location to " ++ place ++ "."),
     {| Fs.files :=
          <[LOCATION_CONFIG_FILE := json_dumps (JObj [("location", JStr place)])]>
            (Fs.files fs);
        Fs.locked := Fs.locked fs |}).
Proof.
  intros Hs Ht He Hp Hw. unfold handle_location_setting.
  destruct (is_location_setting txt) as [is_setting loc]. simpl in Hs, Ht.
  subst is_setting. simpl. rewrite Ht, He.
  destruct place as [|c place]; [congruence|].
  unfold save_location, Fs.write_text.
  now destruct (decide (LOCATION_CONFIG_FILE ∈ Fs.locked fs)).
Qed.

(** The location that intent detection reports is the first place entity
    of the lower-cased text. *)
Lemma detector_location (txt : string) :
  (is_location_setting txt).2 = head (places (brain (Py.lower txt))).
Proof. reflexivity. Qed.

Lemma handle_saves_detected (txt : string) (fs : Fs.t) (place : string) :
  (is_location_setting txt).1 = true ->
  head (places (brain (Py.lower txt))) = Some place ->
  place <> "" ->
  LOCATION_CONFIG_FILE ∉ Fs.locked fs ->
  handle_location_setting txt fs
  = ((true, "i've set your location to " ++ place ++ "."),
     {| Fs.files :=
          <[LOCATION_CONFIG_FILE := json_dumps (JObj [("location", JStr place)])]>
            (Fs.files fs);
        Fs.locked := Fs.locked fs |}).
Proof.
  intros Hs Hd Hp Hw. rewrite <- detector_location in Hd.
  unfold handle_location_setting.
  destruct (is_location_setting txt) as [is_setting loc]. simpl in Hs, Hd.
  subst is_setting loc. destruct place as [|c place]; [congruence|].
  simpl. unfold save_location, Fs.write_text.
  now destruct (decide (LOCATION_CONFIG_FILE ∈ Fs.locked fs)).
Qed.

(** C10, as amended. When no place entity is found in the text, the
    location returned by [extract_location_from_text] is lower-cased
    whatever the case of the input; when one is found, its text is returned
    as it is. [handle_location_setting] saves and echoes the first place
    entity that intent detection found in the lower-cased text when it is
    a non-empty string; only when there is none does it save and echo the
    location returned by [extract_location_from_text], whose case then
    depends on which of the two produced it. *)
Theorem location_case_depends_on_path :
  (forall txt place : string,
     places (brain txt) = [] ->
     extract_location_from_text txt = Some place ->
     Py.lower place = place)
  /\ (forall (txt e : string) (rest : list string),
        places (brain txt) = e :: rest ->
        extract_location_from_text txt = Some e)
  /\ (forall (txt : string) (fs : Fs.t) (place : string),
        (is_location_setting txt).1 = true ->
        truthy (head (places (brain (Py.lower txt)))) = false ->
        extract_location_from_text txt = Some place ->
        place <> "" ->
        LOCATION_CONFIG_FILE ∉ Fs.locked fs ->
        handle_location_setting txt fs
        = ((true, "i've set your location to " ++ place ++ "."),
           {| Fs.files :=
                <[LOCATION_CONFIG_FILE :=
                    json_dumps (JObj [("location", JStr place)])]>
                  (Fs.files fs);
              Fs.locked := Fs.locked fs |}))
  /\ (forall (txt : string) (fs : Fs.t) (place : string),
        (is_location_setting txt).1 = true ->
        head (places (brain (Py.lower txt))) = Some place ->
        place <> "" ->
        LOCATION_CONFIG_FILE ∉ Fs.locked fs ->
        handle_location_setting txt fs
        = ((true, "i've set your location to " ++ place ++ "."),
           {| Fs.files :=
                <[LOCATION_CONFIG_FILE :=
                    json_dumps (JObj [("location", JStr place)])]>
                  (Fs.files fs);
              Fs.locked := Fs.locked fs |})).
Proof.
  split; [exact fallback_lowered|]. split; [exact entity_verbatim|]. split.
  - intros txt fs place Hs Ht. rewrite <- detector_location in Ht.
    now apply handle_saves_extracted.
  - exact handle_saves_detected.
Qed.

End LocationCase.

Lemma location_case_depends_on_path_witness :
  let handle := @Intents.handle_location_setting Flat.library Intents.sample_spacy in
  let handle_any_case :=
    @Intents.handle_location_setting Flat.library Intents.any_case_spacy in
  let saved (fs : Fs.t) := @Intents.get_saved_location Flat.library fs in
  @Intents.extract_location_from_text Intents.sample_spacy "My location is Kyoto"
  = Some "kyoto"
  /\ @Intents.extract_location_from_text Intents.sample_spacy "My location is Tokyo"
     = Some "Tokyo"
  /\ (handle "My location is Tokyo" Fs.empty).1
     = (true, "i've set your location to Tokyo.")
  /\ saved (handle "My location is Tokyo" Fs.empty).2 = Json.JStr "Tokyo"
  /\ (handle "My location is Kyoto" Fs.empty).1
     = (true, "i've set your location to kyoto.")
  /\ saved (handle "My location is Kyoto" Fs.empty).2 = Json.JStr "kyoto"
  /\ (handle_any_case "My location is Paris" Fs.empty).1
     = (true, "i've set your location to paris.")
  /\ saved (handle_any_case "My location is Paris" Fs.empty).2
     = Json.JStr "paris".
Proof.
  intros handle handle_any_case saved.
  destruct (@location_case_depends_on_path Flat.library Intents.sample_spacy)
    as (A & B & C & _).
  destruct (@location_case_depends_on_path Flat.library Intents.any_case_spacy)
    as (_ & _ & _ & D).
  assert (Hk : Py.lower "kyoto" = "kyoto").
  { exact (A "My location is Kyoto" "kyoto" eq_refl eq_refl). }
  assert (Ht := B "My location is Tokyo" "Tokyo" [] eq_refl).
  assert (Ct := C "My location is Tokyo" Fs.empty "Tokyo" eq_refl eq_refl
                  eq_refl ltac:(discriminate) ltac:(apply not_elem_of_empty)).
  assert (Ck := C "My location is Kyoto" Fs.empty "kyoto" eq_refl eq_refl
                  eq_refl ltac:(discriminate) ltac:(apply not_elem_of_empty)).
  assert (Dp := D "My location is Paris" Fs.empty "paris" eq_refl eq_refl
                  ltac:(discriminate) ltac:(apply not_elem_of_empty)).
  split; [reflexivity|]. split; [exact Ht|].
  subst handle handle_any_case saved. cbv beta. rewrite Ct, Ck, Dp.
  repeat split.
Defined.

(** C10 as stated fails. In "My location is Tokyo" the language model finds
    the place entity "Tokyo", so [extract_location_from_text] takes its
    entity path and returns "Tokyo" in its original case; intent detection,
    which reads the lower-cased text, has found "tokyo" there, and that is
    what [handle_location_setting] saves and echoes. *)
Lemma detector_entity_saved_lowercase :
  @Intents.places Intents.any_case_spacy
    (@Intents.brain Intents.any_case_spacy "My location is Tokyo")
  = ["Tokyo"]
  /\ @Intents.extract_location_from_text Intents.any_case_spacy
       "My location is Tokyo"
     = Some "Tokyo"
  /\ (@Intents.handle_location_setting Flat.library Intents.any_case_spacy
        "My location is Tokyo" Fs.empty).1
     = (true, "i've set your location to tokyo.")
  /\ @Intents.get_saved_location Flat.library
       (@Intents.handle_location_setting Flat.library Intents.any_case_spacy
          "My location is Tokyo" Fs.empty).2
     = Json.JStr "tokyo".
Proof. repeat split; vm_compute; reflexivity. Qed.

(** ** The wake-word worker *)

Section WakeLoop.
Import Session.

(** The loop test reads the argument of the thread, never the flag of the
    controller. *)
Lemma loop_test_argument (a : App.t) (th : WakeWord.thread) :
  WakeWord.loop_test (App.stop_event a) (WakeWord.targs th)
  = negb (App.stop_event a)
    && WakeWord.detecting_wake_word (WakeWord.targs th).
Proof. reflexivity. Qed.

Lemma run_cons (k : tick) (ks : list tick) (a : App.t) :
  run (k :: ks) a = run ks (step a k).
Proof. reflexivity. Qed.

Lemma quiet_pass (a : App.t) (th : WakeWord.thread) :
  App.wake_word_thread a = Some th ->
  WakeWord.where_ th = WakeWord.Looping ->
  WakeWord.detecting_wake_word (WakeWord.targs th) = true ->
  App.stop_event a = false ->
  step a (Chunk WakeWord.WaitTimeoutError) = a.
Proof.
  intros Hth Hw Hd Hs. unfold step. rewrite Hth, Hw.
  unfold worker_pass. rewrite loop_test_argument, Hs, Hd. reflexivity.
Qed.

Lemma quiet_passes (n : nat) (a : App.t) (th : WakeWord.thread) :
  App.wake_word_thread a = Some th ->
  WakeWord.where_ th = WakeWord.Looping ->
  WakeWord.detecting_wake_word (WakeWord.targs th) = true ->
  App.stop_event a = false ->
  run (repeat (Chunk WakeWord.WaitTimeoutError) n) a = a.
Proof.
  intros Hth Hw Hd Hs. induction n as [|n IH]; [reflexivity|].
  simpl repeat. rewrite run_cons, (quiet_pass a th) by assumption. exact IH.
Qed.

(** C3, on the code. The wake-word thread is started with ctrl+w and is in
    its loop; ctrl+l then clears the controller's [detecting_wake_word]
    (and leaves the stop signal unset). The loop does not exit: after any
    number of further passes it is still running, because its test reads
    the value the flag had when the thread was created. The stop signal,
    by contrast, ends the loop at its next pass. *)
Theorem wake_loop_survives_cleared_flag (wake_word : string) (n : nat) :
  let listening :=
    run [Press App.CtrlW; Setup WakeWord.Ready] (App.init wake_word) in
  let cleared := run [Press App.CtrlL] listening in
  looping listening = true
  /\ App.detecting_wake_word listening = true
  /\ App.detecting_wake_word cleared = false
  /\ App.stop_event cleared = false
  /\ looping (run (repeat (Chunk WakeWord.WaitTimeoutError) n) cleared) = true
  /\ looping
       (run [Press App.CtrlS; Chunk WakeWord.WaitTimeoutError] listening)
     = false.
Proof.
  intros listening cleared.
  repeat (split; [reflexivity|]).
  split; [|reflexivity].
  rewrite (quiet_passes n cleared
             {| WakeWord.targs :=
                  {| WakeWord.wake_word := Py.lower wake_word;
                     WakeWord.detecting_wake_word := true |};
                WakeWord.where_ := WakeWord.Looping;
                WakeWord.utterance_active := true |});
    reflexivity.
Qed.

End WakeLoop.

(* ===================================================================== *)
(** * Further properties *)
(* ===================================================================== *)

(** ** The streaming client: how a stream ends *)

Section StreamEnds.
Import Json Model.
Context `{Library}.

Lemma brain_stream_app (a b : list string) :
  brain_stream (a ++ b)%list =
  match brain_stream a with
  | (evs, Return) =>
      let '(evs', out) := brain_stream b in ((evs ++ evs')%list, out)
  | (evs, Raise e) => (evs, Raise e)
  end.
Proof.
  induction a as [|l a IH]; simpl app.
  - simpl. now destruct (brain_stream b).
  - rewrite !brain_stream_cons. destruct (on_line l) as [evs [e|]];
      [reflexivity|].
    rewrite IH. destruct (brain_stream a) as [evs1 [|e]];
      [|reflexivity].
    destruct (brain_stream b) as [evs2 out]. now rewrite app_assoc.
Qed.

(** No line after the one that raises is read: the stream ends there,
    whatever follows. *)
Theorem stream_ends_at_first_exception
    (before : list string) (line : string) (after : list string) (e : exn) :
  (on_line line).2 = Some e ->
  brain_stream (before ++ line :: after)%list
  = brain_stream (before ++ [line])%list
  /\ exists evs, brain_stream (line :: after) = (evs, Raise e).
Proof.
  intros He. split.
  - rewrite !brain_stream_app, !brain_stream_cons.
    destruct (on_line line) as [evs o]. simpl in He. now subst o.
  - rewrite brain_stream_cons. destruct (on_line line) as [evs o].
    simpl in He. subst o. now exists evs.
Qed.

(** Empty lines, the keep-alives of the stream, change nothing. *)
Theorem empty_lines_change_nothing (lines : list string) :
  brain_stream (List.filter (fun l => negb (String.eqb l "")) lines)
  = brain_stream lines.
Proof.
  induction lines as [|l lines IH]; [reflexivity|].
  simpl List.filter. destruct l as [|c l].
  - simpl negb. rewrite brain_stream_cons. simpl on_line.
    rewrite IH. now destruct (brain_stream lines).
  - simpl negb. rewrite !brain_stream_cons, IH. reflexivity.
Qed.

(** A line that holds a JSON number, boolean or null is not skipped: the
    membership test on it raises TypeError, which the generator does not
    catch, and the stream ends without a fragment or a log line. *)
Theorem scalar_line_raises_type_error
    (thought chunk : string) (v : value) (rest : list string) :
  thought <> "" ->
  utf8_decode thought = Some chunk ->
  json_loads chunk = inr v ->
  match v with JNull | JBool _ | JNum _ => True | _ => False end ->
  brain_stream (thought :: rest) = ([], Raise TypeError).
Proof.
  intros Hne Hd Hj Hv. rewrite brain_stream_cons.
  unfold on_line. destruct thought; [congruence|].
  rewrite Hd, Hj. now destruct v.
Qed.

End StreamEnds.

Lemma stream_ends_at_first_exception_witness :
  let before := [Flat.record [("response", "Hel")]] in
  let line := Flat.record [("error", "boom")] in
  let after := [Flat.record [("response", "never")]] in
  @Model.brain_stream Flat.library (before ++ line :: after)%list
  = ([Model.Yield (Json.JStr "Hel"); Model.LogError "ollama api error: boom"],
     Model.Raise (Json.OllamaAPIError "ollama api error: boom")).
Proof.
  intros before line after.
  destruct (@stream_ends_at_first_exception Flat.library before line after
              (Json.OllamaAPIError "ollama api error: boom") eq_refl)
    as [E _].
  rewrite E. reflexivity.
Defined.

Lemma scalar_line_raises_type_error_witness :
  @Model.brain_stream Literals.library
    ["5"; Flat.record [("response", "never")]]
  = ([], Model.Raise Json.TypeError).
Proof.
  exact (@scalar_line_raises_type_error Literals.library "5" "5"
           (Json.JNum "5") [Flat.record [("response", "never")]]
           ltac:(discriminate) eq_refl eq_refl I).
Defined.

(** ** Substrings *)

Section Substrings.
Import Py.

Lemma prefix_app_l (n t q : string) :
  String.prefix n t = true -> String.prefix n (t ++ q) = true.
Proof.
  revert t. induction n as [|c n IH]; intros t E; [apply prefix_nil|].
  destruct t as [|d t]; [discriminate|].
  rewrite append_cons. simpl in *. destruct (ascii_dec c d); [|discriminate].
  now apply IH.
Qed.

Lemma str_in_app_l (n t q : string) :
  str_in n t = true -> str_in n (t ++ q) = true.
Proof.
  induction t as [|c t IH]; rewrite str_in_eq; intros E.
  - rewrite orb_false_r in E. rewrite str_in_eq.
    rewrite (prefix_app_l n "" q E). reflexivity.
  - apply orb_true_iff in E as [E|E]; rewrite str_in_eq.
    + now rewrite (prefix_app_l _ _ q E).
    + rewrite append_cons, (IH E). apply orb_true_r.
Qed.

Lemma str_in_app_r (n p t : string) :
  str_in n t = true -> str_in n (p ++ t) = true.
Proof.
  intros E. induction p as [|c p IH]; [exact E|].
  rewrite append_cons, str_in_eq, IH. apply orb_true_r.
Qed.

Lemma str_in_drop (n : string) (k : nat) (t : string) :
  str_in n (drop k t) = true -> str_in n t = true.
Proof.
  revert t. induction k as [|k IH]; intros t E; [exact E|].
  destruct t as [|c t]; [exact E|].
  rewrite str_in_eq, (IH t E). apply orb_true_r.
Qed.

Lemma prefix_app_inv (p q t : string) :
  String.prefix (p ++ q) t = true ->
  String.prefix q (drop (String.length p) t) = true.
Proof.
  revert t. induction p as [|c p IH]; intros t E; [exact E|].
  destruct t as [|d t]; [discriminate|].
  rewrite append_cons in E. simpl in *.
  destruct (ascii_dec c d); [|discriminate]. now apply IH.
Qed.

Lemma str_in_prefix (n t : string) :
  String.prefix n t = true -> str_in n t = true.
Proof. intros E. rewrite str_in_eq, E. reflexivity. Qed.

(** A text that contains [p ++ q] contains [q]. *)
Lemma str_in_needle_tail (p q t : string) :
  str_in (p ++ q) t = true -> str_in q t = true.
Proof.
  induction t as [|c t IH]; rewrite str_in_eq; intros E.
  - rewrite orb_false_r in E. apply prefix_app_inv in E.
    apply str_in_prefix in E. now apply str_in_drop in E.
  - apply orb_true_iff in E as [E|E].
    + apply prefix_app_inv in E. apply str_in_prefix in E.
      now apply str_in_drop in E.
    + rewrite str_in_eq, (IH E). apply orb_true_r.
Qed.

(** A text that contains [p ++ q] contains [p]. *)
Lemma prefix_app_head (p q t : string) :
  String.prefix (p ++ q) t = true -> String.prefix p t = true.
Proof.
  revert t. induction p as [|c p IH]; intros t E; [apply prefix_nil|].
  destruct t as [|d t]; [discriminate|].
  rewrite append_cons in E. simpl in *.
  destruct (ascii_dec c d); [|discriminate]. now apply IH.
Qed.

Lemma str_in_needle_head (p q t : string) :
  str_in (p ++ q) t = true -> str_in p t = true.
Proof.
  induction t as [|c t IH]; rewrite str_in_eq; intros E.
  - rewrite orb_false_r in E. apply prefix_app_head in E.
    now apply str_in_prefix.
  - apply orb_true_iff in E as [E|E].
    + apply prefix_app_head in E. now apply str_in_prefix.
    + rewrite str_in_eq, (IH E). apply orb_true_r.
Qed.

Lemma lower_app (a b : string) : lower (a ++ b) = lower a ++ lower b.
Proof.
  induction a as [|c a IH]; [reflexivity|].
  rewrite append_cons. simpl. now rewrite IH.
Qed.

Lemma lstrip_suffix (s : string) : exists w, s = w ++ lstrip s.
Proof.
  induction s as [|c s [w IH]]; [now exists ""|].
  simpl. destruct (isspace c).
  - exists (String c w). rewrite append_cons. now f_equal.
  - now exists "".
Qed.

Lemma rstrip_prefix (s : string) : exists w, s = rstrip s ++ w.
Proof.
  induction s as [|c s [w IH]]; [now exists ""|].
  rewrite rstrip_cons. destruct (rstrip s) as [|d r].
  - destruct (isspace c).
    + now exists (String c s).
    + exists w. rewrite append_cons. now f_equal.
  - exists w. rewrite append_cons. now f_equal.
Qed.

Lemma str_in_strip (n s : string) :
  str_in n (strip s) = true -> str_in n s = true.
Proof.
  unfold strip. intros E.
  destruct (rstrip_prefix (lstrip s)) as [w Hw].
  destruct (lstrip_suffix s) as [v Hv].
  rewrite Hv. apply str_in_app_r. rewrite Hw. now apply str_in_app_l.
Qed.

Lemma no_mark_after_cut (c : ascii) (s : string) :
  Phrase.sentence_end c = true ->
  str_in (String c "") (Phrase.cut_at Phrase.sentence_end s) = false.
Proof.
  intros Hc. induction s as [|d s IH]; [reflexivity|].
  simpl Phrase.cut_at. destruct (Phrase.sentence_end d) eqn:Hd;
    [reflexivity|].
  rewrite str_in_eq, IH, orb_false_r. simpl.
  destruct (ascii_dec c d); [congruence | reflexivity].
Qed.

End Substrings.

(** ** The weather service: what an extracted location looks like *)

Section Extracted.
Import Py Phrase.

Lemma scan_shape (phrases : list string) (t place : string) :
  scan phrases t = Some place ->
  place <> ""
  /\ strip place = place
  /\ str_in "." place = false
  /\ str_in "?" place = false
  /\ str_in "!" place = false.
Proof.
  rewrite scan_spec.
  destruct (first_phrase phrases t) as [phrase|]; [|discriminate].
  set (r := after_phrase phrase t).
  assert (Hm : forall c, sentence_end c = true ->
                         str_in (String c "") (strip (before_mark r)) = false).
  { intros c Hc.
    destruct (str_in (String c "") (strip (before_mark r))) eqn:E;
      [|reflexivity].
    apply str_in_strip in E. unfold before_mark in E.
    now rewrite no_mark_after_cut in E. }
  pose proof (strip_idem (before_mark r)) as Hs.
  destruct (strip (before_mark r)) as [|c s] eqn:E; [discriminate|].
  intros Hp. injection Hp as <-.
  split; [discriminate|]. split; [exact Hs|].
  repeat split; now apply Hm.
Qed.

End Extracted.

(** A location returned by [extract_location] is never empty, has no
    white space at either end, contains none of the marks '.', '?' and
    '!', and is lower-cased. *)
Theorem extract_location_shape (text place : string) :
  Weather.extract_location text = Some place ->
  place <> ""
  /\ Py.strip place = place
  /\ Py.lower place = place
  /\ Py.str_in "." place = false
  /\ Py.str_in "?" place = false
  /\ Py.str_in "!" place = false.
Proof.
  unfold Weather.extract_location. intros E.
  destruct (scan_shape _ _ _ E) as (H1 & H2 & H3 & H4 & H5).
  repeat split; try assumption.
  apply (scan_lowered Weather.location_phrases (Py.lower text));
    [apply lower_idem | exact E].
Qed.

Lemma extract_location_shape_witness :
  Weather.extract_location "How's the weather in  New York ?  Thanks."
  = Some "new york"
  /\ Py.strip "new york" = "new york".
Proof.
  split; [reflexivity|].
  exact (proj1 (proj2 (extract_location_shape
                         "How's the weather in  New York ?  Thanks."
                         "new york" eq_refl))).
Defined.

(** The phrases "how's the weather in " and "how is the weather in " never
    decide the result: a text that contains one of them contains "weather
    in ", which stands before them in the list. The extraction is the same
    without the two. *)
Theorem shadowed_phrases_never_fire (text : string) :
  Weather.extract_location text
  = Phrase.scan
      [ "set my location to "; "change my location to "; "my location is ";
        "weather in "; "temperature in "; "forecast for "; "weather for ";
        "weather" ]
      (Py.lower text).
Proof.
  unfold Weather.extract_location, Weather.location_phrases.
  set (t := Py.lower text).
  assert (H1 : Py.str_in "weather in " t = false ->
               Py.str_in "how's the weather in " t = false).
  { intros E. destruct (Py.str_in "how's the weather in " t) eqn:F;
      [|reflexivity].
    apply (str_in_needle_tail "how's the " "weather in ") in F. congruence. }
  assert (H2 : Py.str_in "weather in " t = false ->
               Py.str_in "how is the weather in " t = false).
  { intros E. destruct (Py.str_in "how is the weather in " t) eqn:F;
      [|reflexivity].
    apply (str_in_needle_tail "how is the " "weather in ") in F. congruence. }
  cbn [Phrase.scan].
  destruct (Py.str_in "set my location to " t); [reflexivity|].
  destruct (Py.str_in "change my location to " t); [reflexivity|].
  destruct (Py.str_in "my location is " t); [reflexivity|].
  destruct (Py.str_in "weather in " t) eqn:E; [reflexivity|].
  destruct (Py.str_in "temperature in " t); [reflexivity|].
  destruct (Py.str_in "forecast for " t); [reflexivity|].
  destruct (Py.str_in "weather for " t); [reflexivity|].
  now rewrite (H1 eq_refl), (H2 eq_refl).
Qed.

(** ** The weather service: the query test *)

Section WeatherQuery.
Import Py.

Lemma existsb_str_in_embed (words : list string) (pre t post : string) :
  existsb (fun word => str_in word t) words = true ->
  existsb (fun word => str_in word (pre ++ t ++ post)) words = true.
Proof.
  intros E. apply existsb_exists in E as (w & Hw & E).
  apply existsb_exists. exists w. split; [exact Hw|].
  now apply str_in_app_r, str_in_app_l.
Qed.

Lemma is_weather_query_words (text : string) :
  Weather.is_weather_query text
  = existsb (fun word => str_in word (lower text))
      ("set my location" :: "change my location" :: Weather.sky_words).
Proof.
  unfold Weather.is_weather_query. cbn [existsb].
  destruct (str_in "set my location" (lower text)); [reflexivity|].
  now destruct (str_in "change my location" (lower text)).
Qed.

End WeatherQuery.

(** The weather test looks for its words anywhere in the text and in any
    case: it does not change when the text is lower-cased, and a text that
    passes still passes with anything put before and after it. *)
Theorem is_weather_query_substring (text before after : string) :
  Weather.is_weather_query (Py.lower text) = Weather.is_weather_query text
  /\ (Weather.is_weather_query text = true ->
      Weather.is_weather_query (before ++ text ++ after) = true).
Proof.
  split.
  - rewrite !is_weather_query_words. now rewrite lower_idem.
  - rewrite !is_weather_query_words, !lower_app.
    apply existsb_str_in_embed.
Qed.

Lemma is_weather_query_substring_witness :
  Weather.is_weather_query "HOT" = true
  /\ Weather.is_weather_query ("send me the p" ++ "HOT" ++ "os") = true.
Proof.
  destruct (is_weather_query_substring "HOT" "send me the p" "os") as [_ E].
  split; [reflexivity | exact (E eq_refl)].
Defined.

(** ** The weather service: the fetched data *)

Section Fetched.
Import Weather.
Context `{Json.Library} `{Clock.Calendar}.

Lemma upcoming_cons (clock : nat -> Clock.datetime) (reads : nat)
    (h : Hourly.t) (rest : list Hourly.t) (acc : list hour) :
  upcoming clock reads (h :: rest) acc =
  if Clock.later (Hourly.time h) (Clock.time_of (clock reads)) then
    if Nat.leb 3 (length (acc ++ [coming_hour h]))
    then (acc ++ [coming_hour h])%list
    else upcoming clock (S reads) rest (acc ++ [coming_hour h])
  else upcoming clock (S reads) rest acc.
Proof. reflexivity. Qed.

Lemma upcoming_acc (clock : nat -> Clock.datetime) (hourly : list Hourly.t) :
  forall (reads : nat) (acc : list hour),
    length acc < 3 ->
    upcoming clock reads hourly acc
    = (acc ++ take (3 - length acc)
                (map coming_hour (later_entries clock reads hourly)))%list.
Proof.
  induction hourly as [|h rest IH]; intros reads acc Hacc.
  - simpl. now rewrite take_nil, app_nil_r.
  - rewrite upcoming_cons. simpl later_entries.
    destruct (Clock.later (Hourly.time h) (Clock.time_of (clock reads)));
      [|now apply IH].
    assert (Hlen : length (acc ++ [coming_hour h]) = S (length acc))
      by (rewrite length_app; simpl; lia).
    rewrite Hlen.
    destruct (3 - length acc) as [|k] eqn:Hk; [lia|].
    simpl map. simpl take.
    destruct (Nat.leb_spec 3 (S (length acc))) as [Hfull|Hroom].
    + assert (k = 0) by lia. subst k. now rewrite take_0.
    + rewrite IH by lia. rewrite Hlen, <- app_assoc. simpl.
      do 3 f_equal. lia.
Qed.

(** The loop over the hourly forecasts keeps the first three that are
    later than the clock at their test, in the order of the forecast. *)
Theorem upcoming_first_three_later
    (clock : nat -> Clock.datetime) (reads : nat) (hourly : list Hourly.t) :
  upcoming clock reads hourly []
  = take 3 (map coming_hour (later_entries clock reads hourly))
  /\ length (upcoming clock reads hourly []) <= 3.
Proof.
  assert (E := upcoming_acc clock hourly reads [] ltac:(simpl; lia)).
  simpl in E. split; [exact E|].
  rewrite E, length_take. lia.
Qed.

(** In the data fetched, the four keys of today come together or not at
    all, and the upcoming hours come only with them: never as an empty
    list, and with three entries at most. *)
Theorem fetched_keys_come_together
    (provider : Json.value -> option Report.t)
    (clock : nat -> Clock.datetime) (place : option string) (fs : Fs.t)
    (w : weather_data) :
  get_weather_data provider clock place fs = Some w ->
  (is_Some (today_high w) <-> is_Some (today_low w))
  /\ (is_Some (today_high w) <-> is_Some (sunrise w))
  /\ (is_Some (today_high w) <-> is_Some (sunset w))
  /\ forall hours,
       upcoming_hours w = Some hours ->
       hours <> [] /\ length hours <= 3 /\ is_Some (today_high w).
Proof.
  unfold get_weather_data.
  destruct (provider _) as [r|]; [|discriminate].
  intros E. injection E as <-. simpl.
  destruct (head (Report.daily_forecasts r)) as [d|]; simpl.
  - split; [|split; [|split]];
      try (split; intros _; eexists; reflexivity).
    intros hours Hh.
    destruct (upcoming_first_three_later clock 1 (Daily.hourly_forecasts d))
      as [_ Hl].
    destruct (upcoming clock 1 (Daily.hourly_forecasts d) []) as [|x l];
      [discriminate|].
    injection Hh as <-. split; [discriminate|]. split; [exact Hl|].
    eexists; reflexivity.
  - split; [|split; [|split]];
      try (split; intros [x Hx]; discriminate).
    intros hours Hh. discriminate.
Qed.

(** Without a place, the weather is fetched for the saved location: the
    result is the one for that location given as the place. *)
Theorem weather_for_saved_location
    (provider : Json.value -> option Report.t)
    (clock : nat -> Clock.datetime) (v : string) (fs fs' : Fs.t) :
  Json.json_loads (Json.json_dumps (Json.JObj [("location", Json.JStr v)]))
  = inr (Json.JObj [("location", Json.JStr v)]) ->
  (save_location v fs = (true, fs') ->
   get_weather_data provider clock None fs'
   = get_weather_data provider clock (Some v) fs')
  /\ (Fs.path_exists LOCATION_CONFIG_FILE fs = false ->
      get_weather_data provider clock None fs
      = get_weather_data provider clock (Some "Santa Cruz") fs).
Proof.
  intros Hrt. split.
  - intros Hs. unfold get_weather_data.
    now rewrite (read_after_save v fs fs' Hrt Hs).
  - intros Hn. unfold get_weather_data.
    now rewrite (read_without_file fs Hn).
Qed.

End Fetched.

Lemma fetched_keys_come_together_witness :
  let at_ (h : nat) :=
    {| Clock.hour := h; Clock.minute := 0; Clock.second := 0;
       Clock.microsecond := 0 |} in
  let slot (h : nat) :=
    {| Weather.Hourly.time := at_ h; Weather.Hourly.temperature := 60;
       Weather.Hourly.description := "Cloudy";
       Weather.Hourly.chances_of_rain := 10 |} in
  let now :=
    {| Gregorian.year := 2024; Gregorian.month := 6; Gregorian.day := 5;
       Gregorian.weekday := 2;
       Gregorian.time :=
         {| Clock.hour := 7; Clock.minute := 30; Clock.second := 0;
            Clock.microsecond := 0 |} |} in
  let today :=
    {| Weather.Daily.highest_temperature := 70;
       Weather.Daily.lowest_temperature := 50;
       Weather.Daily.sunrise := Some (at_ 6);
       Weather.Daily.sunset := None;
       Weather.Daily.hourly_forecasts :=
         [slot 3; slot 6; slot 9; slot 12; slot 15; slot 18; slot 21] |} in
  let report : @Weather.Report.t Gregorian.calendar :=
    @Weather.Report.Build_t Gregorian.calendar "Tokyo" "Tokyo" "Japan" 64 63
      70 "Cloudy" "CLOUDY" 4 "EAST" now [today] in
  let data :=
    @Weather.get_weather_data Flat.library Gregorian.calendar
      (fun _ => Some report) (fun _ => now) (Some "Tokyo") Fs.empty in
  exists w : Weather.weather_data,
    data = Some w
    /\ Weather.upcoming_hours w
       = Some (map (@Weather.coming_hour) [slot 9; slot 12; slot 15])
    /\ Weather.sunset w = Some "N/A"
    /\ Weather.sunrise w = Some "06:00"
    /\ is_Some (Weather.today_high w)
    /\ is_Some (Weather.today_low w).
Proof.
  intros at_ slot now today report data.
  destruct data as [w|] eqn:E; [|discriminate].
  pose proof (@fetched_keys_come_together Flat.library Gregorian.calendar
                _ _ _ _ w E) as (Hlow & _ & _ & Hh).
  exists w. split; [reflexivity|].
  assert (Eh : Weather.upcoming_hours w
               = Some (map (@Weather.coming_hour) [slot 9; slot 12; slot 15]))
    by (injection E as <-; reflexivity).
  destruct (Hh _ Eh) as (_ & _ & Hhigh).
  split; [exact Eh|].
  split; [injection E as <-; reflexivity|].
  split; [injection E as <-; reflexivity|].
  split; [exact Hhigh | exact (proj1 Hlow Hhigh)].
Defined.

Lemma weather_for_saved_location_witness :
  let now :=
    {| Gregorian.year := 2024; Gregorian.month := 6; Gregorian.day := 5;
       Gregorian.weekday := 2;
       Gregorian.time :=
         {| Clock.hour := 7; Clock.minute := 30; Clock.second := 0;
            Clock.microsecond := 0 |} |} in
  let report (place : string) : @Weather.Report.t Gregorian.calendar :=
    @Weather.Report.Build_t Gregorian.calendar place "" "" 64 63 70 "Cloudy"
      "CLOUDY" 4 "EAST" now [] in
  let provider (place : Json.value) :=
    match place with
    | Json.JStr p => Some (report p)
    | _ => None
    end in
  let fs' := (@Weather.save_location Flat.library "Tokyo" Fs.empty).2 in
  (Weather.location
     <$> @Weather.get_weather_data Flat.library Gregorian.calendar provider
           (fun _ => now) None fs') = Some "Tokyo"
  /\ (Weather.location
        <$> @Weather.get_weather_data Flat.library Gregorian.calendar provider
              (fun _ => now) None Fs.empty) = Some "Santa Cruz".
Proof.
  intros now report provider fs'.
  destruct (@weather_for_saved_location Flat.library Gregorian.calendar
              provider (fun _ => now) "Tokyo" Fs.empty fs' eq_refl)
    as [Hs Hn].
  rewrite (Hs eq_refl), (Hn eq_refl). split; reflexivity.
Defined.

(** ** The streaming client: a record with both fields *)

Section Precedence.
Import Json Model Protocol.
Context `{Library}.

(** The [response] field is looked at first: a record that has it is
    yielded and the stream goes on, also when the record has an [error]
    field, which is then neither logged nor raised. *)
Theorem response_takes_precedence
    (line : string) (d : dict) (v : value) (rest : list string) :
  record_of line = Some d ->
  dict_item "response" d = Some v ->
  on_line line = ([Yield v], None)
  /\ brain_stream (line :: rest)
     = (Yield v :: (brain_stream rest).1, (brain_stream rest).2).
Proof.
  intros Hr Hv.
  assert (E : on_line line = ([Yield v], None)).
  { rewrite (on_line_record line d Hr). now rewrite Hv. }
  split; [exact E|].
  rewrite brain_stream_cons, E. now destruct (brain_stream rest).
Qed.

End Precedence.

Lemma response_takes_precedence_witness :
  @Model.brain_stream Flat.library
    [ Flat.record [("response", "Hel"); ("error", "boom")];
      Flat.record [("response", "lo")] ]
  = ([Model.Yield (Json.JStr "Hel"); Model.Yield (Json.JStr "lo")],
     Model.Return).
Proof.
  destruct (@response_takes_precedence Flat.library
              (Flat.record [("response", "Hel"); ("error", "boom")])
              [("response", Json.JStr "Hel"); ("error", Json.JStr "boom")]
              (Json.JStr "Hel") [Flat.record [("response", "lo")]]
              eq_refl eq_refl) as [_ E].
  rewrite E. reflexivity.
Defined.

(** ** The controller: the categories of the indicator *)

Section Categories.
Import App.

Lemma update_status_category (status class_name : string) (a : t) :
  In class_name categories ->
  only_category class_name (status_light (update_status status class_name a)).
Proof.
  intros Hc. unfold only_category, update_status. simpl.
  repeat constructor; classes_membership;
    simpl in Hc; intuition (subst; congruence).
Qed.

Lemma reset_indicator_category (a : t) :
  only_category "idle" (status_light (reset_indicator a)).
Proof.
  unfold only_category, reset_indicator. simpl.
  repeat constructor; classes_membership.
Qed.

Lemma call_one_category (m : method) (a : t) :
  names_category m = true -> one_category a -> one_category (call a m).
Proof.
  assert (Hidle : In "idle" categories) by (simpl; tauto).
  assert (Hreset : forall b, one_category (reset_indicator b)).
  { intros b. exists "idle". split; [exact Hidle|].
    apply reset_indicator_category. }
  assert (Hupdate : forall s c b, In c categories ->
                                  one_category (update_status s c b)).
  { intros s c b Hc. exists c. split; [exact Hc|].
    now apply update_status_category. }
  intros Hm Ha. destruct m as [[| |]| | | |status class_name]; simpl.
  - unfold action_toggle_wake_word, start_wake_word_detection, stop_all.
    destruct (detecting_wake_word a); simpl; [apply Hreset|].
    apply Hupdate. simpl; tauto.
  - unfold action_toggle_listening, start_direct_listening, stop_all.
    destruct (should_listen a); simpl; [apply Hreset|].
    apply Hupdate. simpl; tauto.
  - apply Hreset.
  - unfold handle_wake_word_detected.
    destruct (should_listen a); exact Ha.
  - unfold restart_wake_word_detection. simpl.
    destruct (direct_listening_mode a); [apply Hreset|].
    destruct (detecting_wake_word a && negb (stop_event a));
      [exact Ha | apply Hreset].
  - exact Ha.
  - apply Hupdate. unfold names_category in Hm.
    apply existsb_exists in Hm as (c & Hc & E).
    apply String.eqb_eq in E. now subst c.
Qed.

End Categories.

(** From the start of the application on, whatever keys are pressed and
    whatever the workers call back, the indicator carries exactly one of
    the five status categories, given that each status update names one,
    as every update in the sources does. *)
Theorem one_category_at_a_time (wake_word : string) (ms : list App.method) :
  forallb App.names_category ms = true ->
  exists c : string,
    In c App.categories
    /\ Forall
         (fun c' =>
            c' ∈ App.classes (App.status_light
                                (App.calls ms (App.init wake_word)))
            <-> c' = c)
         App.categories.
Proof.
  unfold App.calls.
  assert (H0 : App.one_category (App.init wake_word)).
  { exists "idle". split; [simpl; tauto|].
    unfold App.only_category. simpl.
    repeat constructor; rewrite elem_of_singleton; intuition congruence. }
  revert H0. generalize (App.init wake_word).
  induction ms as [|m ms IH]; intros a Ha Hms; [exact Ha|].
  simpl in Hms. apply andb_true_iff in Hms as [Hm Hms].
  simpl fold_left. apply IH; [|exact Hms].
  now apply call_one_category.
Qed.

Lemma one_category_at_a_time_witness :
  let a :=
    App.calls
      [ App.Key App.CtrlW;
        App.UpdateStatus "wake word detected! listening..." "listening";
        App.HandleWakeWordDetected;
        App.UpdateStatus "processing speech..." "processing";
        App.RestartWakeWordDetection ]
      (App.init "google") in
  Forall (fun c' => c' ∈ App.classes (App.status_light a) <-> c' = "processing")
    App.categories.
Proof.
  intros a.
  destruct (one_category_at_a_time "google"
              [ App.Key App.CtrlW;
                App.UpdateStatus "wake word detected! listening..." "listening";
                App.HandleWakeWordDetected;
                App.UpdateStatus "processing speech..." "processing";
                App.RestartWakeWordDetection ] eq_refl)
    as (c & Hc & Hall).
  fold a in Hall.
  assert (Hp : "processing" ∈ App.classes (App.status_light a)).
  { refine (@bool_decide_unpack _ (gset_elem_of_dec _ _) _). vm_compute. exact I. }
  assert (E : c = "processing").
  { rewrite Forall_forall in Hall.
    symmetry. apply (Hall "processing"); [simpl; tauto | exact Hp]. }
  now rewrite <- E.
Defined.

(** ** The controller: what a response leaves behind *)

Section Responded.
Import Json App.
Context `{Library} `{Intents.Spacy} `{Clock.Calendar}.






End Responded.


(** ** The status indicator: the glyph of a status *)

Section Glyphs.
Import Py Widgets.

Lemma str_split_no_sep (sep s : string) :
  str_in sep s = false -> str_split sep s = [s].
Proof.
  rewrite str_in_partition. unfold str_split.
  destruct (String.length s); [reflexivity|]. simpl.
  now destruct (partition sep s).
Qed.

(** A key of the table does not end with a full stop. *)
Lemma icon_of_full_stop (s : string) (default : face) :
  icon_of mood_icons (s ++ ".") default = default.
Proof.
  unfold mood_icons. cbn [icon_of].
  repeat
    match goal with
    | |- context [String.eqb ?k (s ++ ".")] =>
        let E := fresh "E" in
        destruct (String.eqb k (s ++ ".")) eqn:E;
        [ exfalso; apply String.eqb_eq in E; revert E; clear;
          revert s;
          repeat (intros [|? s]; [discriminate|];
                  rewrite append_cons; intros E; injection E as _ E;
                  revert E; revert s);
          intros [|? s]; discriminate
        | ]
    end.
  reflexivity.
Qed.

End Glyphs.

(** A status without a quote that ends with a full stop, white space
    apart, is rendered with the default glyph: none of the seven glyphs of
    the table is shown for "listening...", "processing speech..." or
    "getting ai response...". *)
Theorem full_stop_status_default_glyph (status base : string) :
  Py.str_in "'" status = false ->
  Py.strip status = base ++ "." ->
  (Widgets.render status).1 = Widgets.Arrows.
Proof.
  intros Hq Hs. unfold Widgets.render. cbv zeta. cbn [fst].
  rewrite (str_split_no_sep _ _ Hq). unfold Py.item. cbn [nth].
  rewrite Hs. apply icon_of_full_stop.
Qed.

Lemma full_stop_status_default_glyph_witness :
  (Widgets.render "getting ai response...").1 = Widgets.Arrows
  /\ (Widgets.render "getting ai response").1 = Widgets.Robot.
Proof.
  split; [|reflexivity].
  exact (full_stop_status_default_glyph "getting ai response..."
           "getting ai response.." eq_refl eq_refl).
Defined.

(** ** The intent service: which intent is reported *)

Section Reported.
Import Json Intents.
Context `{Library} `{Spacy}.

Lemma detect_intent_fold (txt : string) :
  exists (step : best -> string * list doc -> best) (B : best),
    B = fold_left step processed_examples
          {| best_intent := None; best_score := 0%Qc; best_example := None;
             scores := [] |}
    /\ (forall (b : best) (i : string) (ex : list doc),
          let s := py_max (map (similarity (brain (Py.lower txt))) ex) in
          best_score (step b (i, ex))
          = (if decide (best_score b < s)%Qc then s else best_score b)
          /\ best_intent (step b (i, ex))
             = (if decide (best_score b < s)%Qc then Some i
                else best_intent b))
    /\ intent (detect_intent txt)
       = (if decide (threshold <= best_score B)%Qc then best_intent B
          else None)
    /\ confidence (detect_intent txt) = best_score B.
Proof.
  unfold detect_intent. cbv zeta.
  match goal with
  | |- context [fold_left ?f processed_examples ?b0] =>
      exists f, (fold_left f processed_examples b0)
  end.
  split; [reflexivity|]. split; [|split; reflexivity].
  intros b i ex. cbv beta iota.
  now destruct (decide _).
Qed.

Lemma processed_examples_scores (txt : string) :
  exists e1 e2 e3 : list doc,
    processed_examples
    = [("WEATHER", e1); ("TIME", e2); ("LOCATION_SETTING", e3)]
    /\ py_max (map (similarity (brain (Py.lower txt))) e1)
       = intent_score "WEATHER" txt
    /\ py_max (map (similarity (brain (Py.lower txt))) e2)
       = intent_score "TIME" txt
    /\ py_max (map (similarity (brain (Py.lower txt))) e3)
       = intent_score "LOCATION_SETTING" txt.
Proof.
  pose (examples_of := fun label : string =>
          map brain
            (match List.find (fun e => String.eqb (fst e) label)
                     intent_examples with
             | Some (_, examples) => examples
             | None => []
             end)).
  exists (examples_of "WEATHER"), (examples_of "TIME"),
    (examples_of "LOCATION_SETTING").
  unfold intent_score. subst examples_of. cbv beta.
  split; [|split; [|split]]; reflexivity.
Qed.

Lemma threshold_positive : (0 < threshold)%Qc.
Proof. reflexivity. Qed.

Ltac qc_order :=
  unfold Qclt, Qcle in *; simpl in *; lra.

Lemma detect_intent_scores (txt : string) :
  let w := intent_score "WEATHER" txt in
  let t := intent_score "TIME" txt in
  let l := intent_score "LOCATION_SETTING" txt in
  let s1 := if decide (0 < w)%Qc then w else 0%Qc in
  let i1 := if decide (0 < w)%Qc then Some "WEATHER" else None in
  let s2 := if decide (s1 < t)%Qc then t else s1 in
  let i2 := if decide (s1 < t)%Qc then Some "TIME" else i1 in
  let s3 := if decide (s2 < l)%Qc then l else s2 in
  let i3 := if decide (s2 < l)%Qc then Some "LOCATION_SETTING" else i2 in
  intent (detect_intent txt)
  = (if decide (threshold <= s3)%Qc then i3 else None)
  /\ confidence (detect_intent txt) = s3.
Proof.
  intros w t l s1 i1 s2 i2 s3 i3.
  destruct (detect_intent_fold txt) as (step & B & HB & Hstep & Hi & Hc).
  destruct (processed_examples_scores txt)
    as (e1 & e2 & e3 & E & E1 & E2 & E3).
  rewrite Hi, Hc. clear Hi Hc.
  rewrite E in HB. cbn [fold_left] in HB.
  match type of HB with
  | _ = step (step (step ?b0 _) _) _ =>
      pose proof (Hstep b0 "WEATHER" e1) as H1;
      pose proof (Hstep (step b0 ("WEATHER", e1)) "TIME" e2) as H2;
      pose proof (Hstep (step (step b0 ("WEATHER", e1)) ("TIME", e2))
                    "LOCATION_SETTING" e3) as H3
  end.
  cbv zeta in H1, H2, H3. rewrite E1 in H1. rewrite E2 in H2.
  rewrite E3 in H3. cbn [best_score best_intent] in H1.
  destruct H1 as [S1 I1], H2 as [S2 I2], H3 as [S3 I3].
  rewrite S1 in S2, I2. rewrite I1 in I2. rewrite S2 in S3, I3.
  rewrite I2 in I3. rewrite <- HB in S3, I3. rewrite S3, I3.
  split; reflexivity.
Qed.

(** The intent reported is the first of WEATHER, TIME and LOCATION_SETTING
    whose score is the best of the three, if that score reaches the
    threshold, and none otherwise; the confidence is the best score, or 0
    when no score is positive. *)
Theorem detect_intent_first_best (txt : string) :
  let r := detect_intent txt in
  let w := intent_score "WEATHER" txt in
  let t := intent_score "TIME" txt in
  let l := intent_score "LOCATION_SETTING" txt in
  (0 <= confidence r /\ w <= confidence r /\ t <= confidence r
   /\ l <= confidence r)%Qc
  /\ (intent r = None <-> (confidence r < threshold)%Qc)
  /\ (intent r = Some "WEATHER"
      <-> (threshold <= w /\ t <= w /\ l <= w)%Qc)
  /\ (intent r = Some "TIME"
      <-> (threshold <= t /\ w < t /\ l <= t)%Qc)
  /\ (intent r = Some "LOCATION_SETTING"
      <-> (threshold <= l /\ w < l /\ t < l)%Qc)
  /\ (forall label : string,
        intent r = Some label ->
        In label ["WEATHER"; "TIME"; "LOCATION_SETTING"]
        /\ confidence r = intent_score label txt).
Proof.
  intros r w t l. subst r.
  destruct (detect_intent_scores txt) as [Hi Hc]. cbv zeta in Hi, Hc.
  fold w t l in Hi, Hc. rewrite Hi, Hc. clear Hi Hc.
  assert (Ew : intent_score "WEATHER" txt = w) by reflexivity.
  assert (Et : intent_score "TIME" txt = t) by reflexivity.
  assert (El : intent_score "LOCATION_SETTING" txt = l) by reflexivity.
  clearbody w t l.
  pose proof threshold_positive as Hth. revert Hth.
  generalize threshold. intros th Hth.
  repeat case_decide;
    (split; [repeat split; qc_order|]);
    (split; [split; [intros E; try discriminate E; qc_order
                    | intros E; try reflexivity; qc_order]|]);
    (split; [split; [intros E; try discriminate E; repeat split; qc_order
                    | intros E; try reflexivity; qc_order]|]);
    (split; [split; [intros E; try discriminate E; repeat split; qc_order
                    | intros E; try reflexivity; qc_order]|]);
    (split; [split; [intros E; try discriminate E; repeat split; qc_order
                    | intros E; try reflexivity; qc_order]|]);
    intros label E; try discriminate E; injection E as <-;
    (split; [simpl; tauto | congruence]).
Qed.

End Reported.

(** ** The intent service: the three tests *)

Section Tests.
Import Json Intents.
Context `{Library} `{Spacy}.

(** The three tests read one detection: at most one of them holds for a
    text, and the weather test and the location test report the same
    place, the first place entity of the lower-cased text. *)
Theorem intent_tests_exclusive (txt : string) :
  (is_weather_query txt).1 && is_time_query txt = false
  /\ (is_weather_query txt).1 && (is_location_setting txt).1 = false
  /\ is_time_query txt && (is_location_setting txt).1 = false
  /\ (is_weather_query txt).2 = (is_location_setting txt).2
  /\ (is_weather_query txt).2 = head (places (brain (Py.lower txt))).
Proof.
  unfold is_weather_query, is_time_query, is_location_setting.
  cbv zeta. cbn [fst snd].
  split; [|split; [|split; [|split; reflexivity]]];
    destruct (intent (detect_intent txt)) as [label|];
    repeat case_bool_decide; try reflexivity; congruence.
Qed.

End Tests.

(** ** The time service: the query test *)

(** Four of the ten words of the time test never decide it: a text that
    contains "what time" or "current time" contains "time", and one that
    contains "today" or "what day" contains "day". The test is the one
    for the six words left, so that every text with "day" in it passes. *)
Theorem time_words_shadowed (text : string) :
  Time.is_time_query text
  = existsb (fun word => Py.str_in word (Py.lower text))
      ["time"; "clock"; "date"; "day"; "month"; "year"].
Proof.
  unfold Time.is_time_query, Time.time_words. cbv zeta.
  set (t := Py.lower text). cbn [existsb].
  destruct (Py.str_in "time" t) eqn:Etime; [reflexivity|].
  destruct (Py.str_in "what time" t) eqn:E1.
  { apply (str_in_needle_tail "what " "time") in E1. congruence. }
  destruct (Py.str_in "current time" t) eqn:E2.
  { apply (str_in_needle_tail "current " "time") in E2. congruence. }
  destruct (Py.str_in "clock" t); [reflexivity|].
  destruct (Py.str_in "date" t); [reflexivity|].
  destruct (Py.str_in "day" t) eqn:Eday; [reflexivity|].
  destruct (Py.str_in "today" t) eqn:E3.
  { apply (str_in_needle_tail "to" "day") in E3. congruence. }
  destruct (Py.str_in "month" t); [reflexivity|].
  destruct (Py.str_in "year" t); [reflexivity|].
  destruct (Py.str_in "what day" t) eqn:E4; [|reflexivity].
  apply (str_in_needle_tail "what " "day") in E4. congruence.
Qed.

(** ** The command line *)

(** A prompt file takes the place of the system prompt given on the
    command line; when the file is blank the system prompt is the empty
    string, and the request then carries no system prompt at all. *)
Theorem blank_prompt_file_drops_system_prompt
    (parsed : Main.args) (fs : Fs.t) (path content text : string) :
  Main.prompt_file parsed = Some path ->
  path <> "" ->
  Fs.read_text path fs = Some content ->
  Main.main parsed fs
  = inr (App.init (Main.wake_word parsed), Main.model parsed,
         Some (Py.strip content))
  /\ (Py.strip content = "" ->
      Model.brain_food text (Main.model parsed) (Some (Py.strip content))
      = Model.brain_food text (Main.model parsed) None).
Proof.
  intros Hp Hne Hr. split.
  - unfold Main.main, Main.parse_arguments. rewrite Hp.
    destruct path as [|c path]; [congruence|]. now rewrite Hr.
  - intros ->. reflexivity.
Qed.

Lemma blank_prompt_file_drops_system_prompt_witness :
  let parsed :=
    {| Main.model := "gemma3:4b"; Main.system_prompt := Some "be brief";
       Main.prompt_file := Some "prompt.txt"; Main.wake_word := "Google" |} in
  let fs :=
    {| Fs.files := {[ "prompt.txt" := "  " ++ Py.nl ]}; Fs.locked := ∅ |} in
  Main.main parsed fs = inr (App.init "google", "gemma3:4b", Some "")
  /\ Model.brain_food "hello" "gemma3:4b" (Some "")
     = [ ("model", Json.JStr "gemma3:4b"); ("prompt", Json.JStr "hello");
         ("stream", Json.JBool true) ].
Proof.
  intros parsed fs.
  destruct (blank_prompt_file_drops_system_prompt parsed fs "prompt.txt"
              ("  " ++ Py.nl) "hello" eq_refl ltac:(discriminate) eq_refl)
    as [Em Eb].
  split; [rewrite Em; reflexivity|].
  exact (Eb eq_refl).
Defined.
